(** * ERC20 permit generation: a shallow embedding of
      [src/handlers/generate-erc20-permit.ts] and the properties of its
      pipeline (nonce derivation, amount scaling, domain conversion,
      fail-fast ordering of the checks).

    The handler is one asynchronous function that sequences calls to
    collaborators (provider selection, decryption, token metadata, the
    Permit2 SDK, the signer) and throws on the first failure.  It is
    modelled as a computation in a small trace-and-exception monad: every
    collaborator call and every log line is recorded as an event, so that
    "X fails before Y is attempted" is a statement on the recorded trace.

    Layout:
    - [Js]      the JavaScript built-ins the handler relies on
                (strings, Number to string, BigInt, thrown values);
    - [Ethers]  the pure helpers imported from ethers
                (toUtf8Bytes, keccak256's hex output, MaxInt256, parseUnits);
    - [Permit2] the data of the Permit2 SDK that flows through the handler;
    - the handler itself, then the theorems. *)

From Stdlib Require Import ZArith QArith List String Ascii Lia Bool.
From Stdlib Require Import Strings.Byte.
From Stdlib Require Import Qabs.
From Stdlib Require Import Decimal DecimalString DecimalPos DecimalZ.
Import ListNotations.

#[local] Open Scope string_scope.
#[local] Open Scope Z_scope.

(* ================================================================== *)
(** * JavaScript built-ins *)
(* ================================================================== *)

Module Js.

(** A JavaScript string is modelled by the [string] of its UTF-8 bytes.
    The handler only concatenates strings, tests them for emptiness and
    hands them to [toUtf8Bytes]; the digit strings whose length matters
    are ASCII, where bytes and UTF-16 code units coincide. *)

Definition truthy_string (s : string) : bool :=
  match s with
  | EmptyString => false
  | String _ _ => true
  end.

(** [string | null | undefined]: both [null] and [undefined] are [None]. *)
Definition truthy_opt (o : option string) : bool :=
  match o with
  | Some s => truthy_string s
  | None => false
  end.

(** ** Thrown values

    [Error m] is [new Error(m)]; [Foreign r] is any value thrown by a
    library or a collaborator, known here only by its rendering [r]
    under [String(...)], which is all a template literal uses of it.
    (The errors of ethers' own [parseUnits] below are named by their
    short message: their full rendering adds the error name and a list
    of details that includes the library version.) *)
Inductive exn : Type :=
| Error (message : string)
| Foreign (rendering : string).

(** [String(e)], as used by [`${error}`]: Error.prototype.toString with
    the default name. *)
Definition String_of_exn (e : exn) : string :=
  match e with
  | Error EmptyString => "Error"
  | Error m => "Error: " ++ m
  | Foreign r => r
  end.

(** [String(process.env.X)]: an unset variable renders as "undefined". *)
Definition String_of_env (v : option string) : string :=
  match v with
  | Some s => s
  | None => "undefined"
  end.

(** The outcome of a call that may throw. *)
Inductive result (A : Type) : Type :=
| Ok (a : A)
| Throw (e : exn).
Arguments Ok {A} a.
Arguments Throw {A} e.

(** ** Digit strings *)

Definition dec_digit (c : ascii) : option Z :=
  let n := Z.of_nat (nat_of_ascii c) in
  if (48 <=? n) && (n <=? 57) then Some (n - 48) else None.

Definition hex_digit (c : ascii) : option Z :=
  let n := Z.of_nat (nat_of_ascii c) in
  if (48 <=? n) && (n <=? 57) then Some (n - 48)
  else if (97 <=? n) && (n <=? 102) then Some (n - 87)
  else if (65 <=? n) && (n <=? 70) then Some (n - 55)
  else None.

Definition is_digit (c : ascii) : bool :=
  match dec_digit c with Some _ => true | None => false end.

(** Most significant digit first; [None] on a character that is not a
    digit of the radix. *)
Fixpoint parse_radix (radix : Z) (digit : ascii -> option Z)
         (acc : Z) (s : string) : option Z :=
  match s with
  | EmptyString => Some acc
  | String c r =>
      match digit c with
      | Some d => parse_radix radix digit (radix * acc + d) r
      | None => None
      end
  end.

Definition parse_dec (s : string) : option Z :=
  match s with
  | EmptyString => None
  | _ => parse_radix 10 dec_digit 0 s
  end.

Definition parse_hex (s : string) : option Z :=
  match s with
  | EmptyString => None
  | _ => parse_radix 16 hex_digit 0 s
  end.

Fixpoint zeros (n : nat) : string :=
  match n with
  | O => EmptyString
  | S m => String "0" (zeros m)
  end.

Fixpoint all_zeros (s : string) : bool :=
  match s with
  | EmptyString => true
  | String c r => Ascii.eqb c "0" && all_zeros r
  end.

Fixpoint all_digits (s : string) : bool :=
  match s with
  | EmptyString => true
  | String c r => is_digit c && all_digits r
  end.

(** ** BigInt *)

Definition bigint := Z.

(** [BigInt(s)] on a string: a "0x"/"0X" prefix selects hexadecimal, an
    optional sign is allowed in decimal only, the empty string is 0n;
    [None] stands for the SyntaxError.  (Surrounding white space and the
    octal and binary prefixes are left out: no string reaching this
    function in the handler carries them.) *)
Definition BigInt (s : string) : option bigint :=
  match s with
  | EmptyString => Some 0
  | String "0" (String "x" h) => parse_hex h
  | String "0" (String "X" h) => parse_hex h
  | String "-" d => option_map Z.opp (parse_dec d)
  | String "+" d => parse_dec d
  | _ => parse_dec s
  end.

(** [b.toString()] of a bigint: decimal, a leading "-" when negative. *)
Definition BigInt_toString (b : bigint) : string :=
  NilZero.string_of_int (Z.to_int b).

(** ** Number

    A JavaScript number is an IEEE double.  The handler never computes
    with its numbers: it prints them ([toString], template literals),
    tests one for truthiness and passes them on.  ECMAScript defines
    Number::toString of a finite non-zero [x] from the integers [s], [n],
    [k] with [10^(k-1) <= s < 10^k] and [x = s * 10^(n-k)], [k] minimal;
    a finite number is represented here by that decomposition: [s], whose
    number of decimal digits is [k], and [n].  [+0] and [-0] behave alike
    under everything the handler does and are one [Zero]. *)
Inductive number : Type :=
| NaN
| Infinity (negative : bool)
| Zero
| Finite (negative : bool) (s : positive) (n : Z).

Definition digits_of (s : positive) : string :=
  NilEmpty.string_of_uint (Pos.to_uint s).

Definition sign_prefix (negative : bool) : string :=
  if negative then "-" else "".

(** Number::toString(x, 10), clause by clause. *)
Definition Number_toString (x : number) : string :=
  match x with
  | NaN => "NaN"
  | Infinity neg => sign_prefix neg ++ "Infinity"
  | Zero => "0"
  | Finite neg s n =>
      let ds := digits_of s in
      let k := Z.of_nat (String.length ds) in
      sign_prefix neg ++
      (if (k <=? n) && (n <=? 21) then
         ds ++ zeros (Z.to_nat (n - k))
       else if (0 <? n) && (n <=? 21) then
         substring 0 (Z.to_nat n) ds ++ "." ++
         substring (Z.to_nat n) (Z.to_nat (k - n)) ds
       else if (-6 <? n) && (n <=? 0) then
         "0." ++ zeros (Z.to_nat (- n)) ++ ds
       else
         let e := n - 1 in
         let es := (if e <? 0 then "-" else "+") ++ BigInt_toString (Z.abs e) in
         if k =? 1 then ds ++ "e" ++ es
         else substring 0 1 ds ++ "." ++
              substring 1 (Z.to_nat (k - 1)) ds ++ "e" ++ es)
  end.

(** ToBoolean on a number: [0] and [NaN] are falsy. *)
Definition truthy_number (x : number) : bool :=
  match x with
  | NaN | Zero => false
  | _ => true
  end.

(** The decimal that a finite number prints as, as a rational:
    [s * 10^(n-k)], signed.  This is the value written by [toString], not
    the value of the double itself: ECMAScript only asks that it round to
    the double (see [prints] below). *)
Definition printed_value (x : number) : option Q :=
  match x with
  | Zero => Some (0 # 1)%Q
  | Finite neg s n =>
      let k := Z.of_nat (String.length (digits_of s)) in
      let m := if neg then Z.neg s else Z.pos s in
      Some (if k <=? n then inject_Z (m * 10 ^ (n - k))
            else (m # Z.to_pos (10 ^ (k - n)))%Q)
  | _ => None
  end.

(** ** The double behind a number

    A finite, non-zero, normal IEEE binary64: sign, mantissa [m] with
    [2^52 <= m < 2^53] and exponent [e], of value [m * 2^e]. *)
Record binary64 : Type := {
  b_negative : bool;
  b_mantissa : Z;
  b_exponent : Z
}.

Definition binary64_normal (x : binary64) : bool :=
  (2 ^ 52 <=? b_mantissa x) && (b_mantissa x <? 2 ^ 53) &&
  (-1074 <=? b_exponent x) && (b_exponent x <=? 971).

Definition pow2 (e : Z) : Q :=
  if 0 <=? e then inject_Z (2 ^ e) else (1 # Z.to_pos (2 ^ (- e)))%Q.

(** The magnitude [m * 2^e], and the value with its sign. *)
Definition binary64_magnitude (x : binary64) : Q :=
  (inject_Z (b_mantissa x) * pow2 (b_exponent x))%Q.

Definition binary64_value (x : binary64) : Q :=
  if b_negative x then (- binary64_magnitude x)%Q else binary64_magnitude x.

(** [x] is the double nearest to the rational [q] (round to nearest,
    ties to the even mantissa): [q] has the sign of [x] and its magnitude
    lies within half a unit in the last place of [x]; below the first
    mantissa of a binade the doubles are twice as dense. *)
Definition rounds_to (q : Q) (x : binary64) : bool :=
  let a := Qabs q in
  let v := binary64_magnitude x in
  let up := pow2 (b_exponent x - 1) in
  let down :=
    if (b_mantissa x =? 2 ^ 52) && (-1074 <? b_exponent x)
    then pow2 (b_exponent x - 2) else up in
  let lo := (v - down)%Q in
  let hi := (v + up)%Q in
  Bool.eqb (b_negative x) (negb (Qle_bool 0 q)) &&
  (if Z.even (b_mantissa x)
   then Qle_bool lo a && Qle_bool a hi
   else negb (Qle_bool a lo) && negb (Qle_bool hi a)).

(** Number::toString, step 5: the number printed for the double [x] is
    given by integers [n], [k], [s] such that [s] has [k] digits,
    [s * 10^(n-k)] rounds to [x], and [k] is as small as possible. *)
Definition prints (x : binary64) (y : number) : Prop :=
  match y with
  | Finite neg s n =>
      binary64_normal x = true /\
      (exists q, printed_value (Finite neg s n) = Some q /\ rounds_to q x = true) /\
      (forall neg' s' n' q',
          (String.length (digits_of s') < String.length (digits_of s))%nat ->
          printed_value (Finite neg' s' n') = Some q' ->
          rounds_to q' x = false)
  | _ => False
  end.

End Js.

(* ================================================================== *)
(** * The helpers imported from ethers *)
(* ================================================================== *)

Module Ethers.
Import Js.

(** [toUtf8Bytes(str)]: with strings held as their UTF-8 bytes, the
    bytes of the string.  (The real function throws on a string with an
    unpaired UTF-16 surrogate; such a string has no UTF-8 bytes and is
    not a [string] of this model, so that throw is not represented.) *)
Definition toUtf8Bytes (str : string) : list byte := list_byte_of_string str.

Definition hex_char (nibble : N) : ascii :=
  ascii_of_N (if (nibble <? 10)%N then 48 + nibble else 87 + nibble).

(** [hexlify(bytes)]: "0x" and two lower-case hexadecimal digits a byte. *)
Fixpoint hex_of_bytes (bs : list byte) : string :=
  match bs with
  | [] => EmptyString
  | b :: r =>
      String (hex_char (Byte.to_N b / 16))
        (String (hex_char (Byte.to_N b mod 16)) (hex_of_bytes r))
  end.

Definition hexlify (bs : list byte) : string := "0x" ++ hex_of_bytes bs.

(** [keccak256(data)] returns the digest as a hex string.  The
    permutation itself is cryptography outside this development:
    [digest] is the function from byte strings to 32-byte digests. *)
Definition keccak256 (digest : list byte -> list byte) (data : list byte) : string :=
  hexlify (digest data).

(** The big-endian value of a byte string. *)
Fixpoint be_value (acc : Z) (bs : list byte) : Z :=
  match bs with
  | [] => acc
  | b :: r => be_value (256 * acc + Z.of_N (Byte.to_N b)) r
  end.

(** [MaxInt256], the constant [BigInt("0x7fff...ff")] of ethers. *)
Definition MaxInt256 : bigint :=
  0x7fffffffffffffffffffffffffffffffffffffffffffffffffffffffffffffff.

(** ** parseUnits

    [parseUnits(value, decimals)] is
    [FixedNumber.fromString(value, { decimals, width: 512 }).value]. *)

(** The longest prefix of digits (a greedy digit group), and what
    follows it. *)
Fixpoint span_digits (s : string) : string * string :=
  match s with
  | EmptyString => (EmptyString, EmptyString)
  | String c r =>
      if is_digit c then
        let (d, rest) := span_digits r in (String c d, rest)
      else (EmptyString, s)
  end.

(** Where a digit group certainly stops: at the end of the string or
    before a character that is not a digit. *)
Definition starts_without_digit (s : string) : Prop :=
  match s with
  | EmptyString => True
  | String c _ => is_digit c = false
  end.

(** The optional leading "-". *)
Definition strip_sign (value : string) : bool * string :=
  match value with
  | String "-" r => (true, r)
  | _ => (false, value)
  end.

(** The match of [value] against the anchored pattern of fromString: an
    optional "-", a group of digits, an optional ".", a group of digits,
    the end of the string.  Returns the sign, the whole part and the
    decimals, or [None] when the string does not match. *)
Definition match_fixed (value : string) : option (bool * string * string) :=
  let (neg, r0) := strip_sign value in
  let (whole, r1) := span_digits r0 in
  let r2 :=
    match r1 with
    | String "." r => r
    | _ => r1
    end in
  let (decimal, r3) := span_digits r2 in
  match r3 with
  | EmptyString => Some (neg, whole, decimal)
  | String _ _ => None
  end.

(** [while (decimal.length < decimals) { decimal += "0000"; }] in closed
    form: the number of four-zero blocks appended. *)
Definition pad_decimals (decimal : string) (decimals : nat) : string :=
  decimal ++ zeros (4 * ((decimals - String.length decimal + 3) / 4)).

(** [match[2] || "0"]: an empty whole part counts as "0". *)
Definition or_zero (whole : string) : string :=
  match whole with
  | EmptyString => "0"
  | _ => whole
  end.

(** fromString, check by check: the pattern and at least one digit; the
    format (at most 80 decimals; the width, 512, is a multiple of 8);
    padding; no non-zero digit beyond [decimals]; the value within the
    signed 512-bit range.  The values thrown are ethers errors, rendered
    here by their short message only. *)
Definition parseUnits (value : string) (decimals : N) : result bigint :=
  match match_fixed value with
  | None => Throw (Foreign "invalid FixedNumber string value")
  | Some (neg, w, f) =>
      if (String.length w + String.length f =? 0)%nat then
        Throw (Foreign "invalid FixedNumber string value")
      else if (80 <? decimals)%N then
        Throw (Foreign "invalid FixedNumber decimals (too large)")
      else
        let d := N.to_nat decimals in
        let whole := or_zero w in
        let decimal := pad_decimals f d in
        if negb (all_zeros (substring d (String.length decimal - d) decimal)) then
          Throw (Foreign "too many decimals for format")
        else
          let decimal := substring 0 d decimal in
          match BigInt (sign_prefix neg ++ whole ++ decimal) with
          | None => Throw (Foreign "Cannot convert to a BigInt")
          | Some v =>
              if (- 2 ^ 511 <=? v) && (v <? 2 ^ 511) then Ok v
              else Throw (Foreign "overflow")
          end
  end.

End Ethers.

(* ================================================================== *)
(** * The Permit2 SDK data that flows through the handler *)
(* ================================================================== *)

Module Permit2.
Import Js.

Record TokenPermissions : Type := {
  token : string;
  amount : bigint
}.

Record PermitTransferFrom : Type := {
  permitted : TokenPermissions;
  spender : string;
  nonce : bigint;
  deadline : bigint
}.

(** The typed-data domain as the SDK builds it: every field optional,
    the chain id a number (the SDK stores the [chainId] argument it is
    given, here [_evmNetworkId]), the salt a hex string. *)
Record TypedDataDomain : Type := {
  name : option string;
  version : option string;
  chainId : option number;
  verifyingContract : option string;
  salt : option string
}.

(** A typed-data schema: struct name, then (field name, field type). *)
Definition TypedDataTypes : Type := list (string * list (string * string)).

Record PermitTransferFromData : Type := {
  domain : TypedDataDomain;
  types : TypedDataTypes;
  values : PermitTransferFrom
}.

Definition PERMIT2_ADDRESS : string := "0x000000000022D473030F116dDEE9F6B43aC78BA3".

Definition MaxUint256 : bigint := 2 ^ 256 - 1.

Definition PERMIT_TRANSFER_FROM_TYPES : TypedDataTypes :=
  [ ("PermitTransferFrom",
     [ ("permitted", "TokenPermissions"); ("spender", "address");
       ("nonce", "uint256"); ("deadline", "uint256") ]);
    ("TokenPermissions", [ ("token", "address"); ("amount", "uint256") ]) ].

Definition permit2Domain (permit2Address : string) (chain : number)
  : TypedDataDomain :=
  {| name := Some "Permit2";
     version := None;
     chainId := Some chain;
     verifyingContract := Some permit2Address;
     salt := None |}.

(** The SDK's own [SignatureTransfer.getPermitData] for a permit without
    witness, as the reference behaviour of that collaborator: three range
    checks, then the Permit2 domain of the chain, the fixed schema and
    the permit itself.  The handler below does not depend on it: it takes
    the function from its environment. *)
Definition getPermitData (permit : PermitTransferFrom) (permit2Address : string)
           (chain : number) : result PermitTransferFromData :=
  if MaxUint256 <? deadline permit then
    Throw (Foreign "Error: Invariant failed: SIG_DEADLINE_OUT_OF_RANGE")
  else if MaxUint256 <? nonce permit then
    Throw (Foreign "Error: Invariant failed: NONCE_OUT_OF_RANGE")
  else if MaxUint256 <? amount (permitted permit) then
    Throw (Foreign "Error: Invariant failed: AMOUNT_OUT_OF_RANGE")
  else
    Ok {| domain := permit2Domain permit2Address chain;
          types := PERMIT_TRANSFER_FROM_TYPES;
          values := permit |}.

End Permit2.

(* ================================================================== *)
(** * The handler *)
(* ================================================================== *)

Import Js.

Inductive TokenType : Type := ERC20 | ERC721.

Record PermitReward : Type := {
  tokenType : TokenType;
  tokenAddress : string;
  beneficiary : string;
  nonce : string;
  deadline : string;
  amount : string;
  owner : string;
  signature : string;
  networkId : number
}.

(** A logger and a provider connection are opaque handles. *)
Record Logger : Type := { logger_id : string }.
Record Provider : Type := { provider_url : string }.

(** [new ethers.Wallet(privateKey, provider)]: the key, the connection
    and the address derived from the key. *)
Record Wallet : Type := {
  wallet_privateKey : string;
  wallet_provider : Provider;
  address : string
}.

(** The domain object the handler hands to [signTypedData]. *)
Record SignerDomain : Type := {
  sd_name : option string;
  sd_version : option string;
  sd_chainId : option string;
  sd_verifyingContract : option string;
  sd_salt : option string
}.

(** ** The two call shapes *)

Record Payload : Type := {
  evmNetworkId : number;
  evmPrivateEncrypted : string;
  walletAddress : string;
  issueNodeId : string;
  logger : Logger;
  userId : number
}.

Record UserData : Type := { id : number }.

Record Config : Type := {
  cfg_evmNetworkId : number;
  cfg_evmPrivateEncrypted : string
}.

(** The webhook payload of a context: the node ids of its [issue] and
    [pull_request] keys, when present. *)
Record EventPayload : Type := {
  issue : option string;
  pull_request : option string
}.

(** A context carries its own collaborators: the GitHub client and the
    wallet adapter.  Each may reject (throw). *)
Record Context : Type := {
  config : Config;
  ctx_logger : Logger;
  octokit_users_getByUsername : string -> result (option UserData);
  adapters_supabase_wallet_getWalletByUserId : number -> result (option string);
  payload : EventPayload
}.

(** ["issueNodeId" in contextOrPayload] tells the shapes apart. *)
Inductive ContextOrPayload : Type :=
| IsPayload (p : Payload)
| IsContext (c : Context).

(** ** Collaborators outside the handler

    The environment of a call: what each external function answers.
    Two calls may run in different environments. *)
Record ParsedKey : Type := { privateKey : option string }.

Record Env : Type := {
  X25519_PRIVATE_KEY : option string;
  getFastestProvider : number -> result (option Provider);
  decrypt : string -> string -> result string;
  parseDecryptedPrivateKey : string -> result ParsedKey;
  computeAddress : string -> result string;
  decimals : string -> Provider -> result N;
  getPermitData :
    Permit2.PermitTransferFrom -> string -> number ->
    result Permit2.PermitTransferFromData;
  signTypedData :
    Wallet -> SignerDomain -> Permit2.TypedDataTypes ->
    Permit2.PermitTransferFrom -> result string
}.

(** ** Events and the trace monad *)

Inductive level : Type := Lerror | Ldebug | Linfo.

Inductive event : Type :=
| EvGetByUsername (username : string)
| EvGetWalletByUserId (user : number)
| EvLog (l : Logger) (lvl : level) (message : string) (meta : option PermitReward)
| EvGetFastestProvider (network : number)
| EvDecrypt (cipher secret : string)
| EvParseDecryptedPrivateKey (plain : string)
| EvNewWallet (key : string) (p : Provider)
| EvDecimals (token : string) (p : Provider)
| EvGetPermitData (permit : Permit2.PermitTransferFrom) (permit2 : string) (chain : number)
| EvSignTypedData (w : Wallet) (d : SignerDomain) (t : Permit2.TypedDataTypes)
                  (v : Permit2.PermitTransferFrom).

Definition trace : Type := list event.

(** The kinds of events the ordering properties speak of. *)
Definition is_identity_lookup (ev : event) : bool :=
  match ev with
  | EvGetByUsername _ | EvGetWalletByUserId _ => true
  | _ => false
  end.

Definition is_provider_resolution (ev : event) : bool :=
  match ev with
  | EvGetFastestProvider _ => true
  | _ => false
  end.

Definition is_decryption (ev : event) : bool :=
  match ev with
  | EvDecrypt _ _ | EvParseDecryptedPrivateKey _ => true
  | _ => false
  end.

Definition is_decimals_fetch (ev : event) : bool :=
  match ev with
  | EvDecimals _ _ => true
  | _ => false
  end.

Definition is_signing (ev : event) : bool :=
  match ev with
  | EvSignTypedData _ _ _ _ => true
  | _ => false
  end.

(** The network calls of the pipeline: fetching a provider, reading the
    token decimals, requesting the signature. *)
Definition is_network_call (ev : event) : bool :=
  is_provider_resolution ev || is_decimals_fetch ev || is_signing ev.

(** [none p tr]: no event of the trace satisfies [p]. *)
Definition none (p : event -> bool) (tr : trace) : bool :=
  forallb (fun ev => negb (p ev)) tr.

Definition M (A : Type) : Type := trace -> result A * trace.

Definition ret {A : Type} (a : A) : M A := fun tr => (Ok a, tr).

Definition throw {A : Type} (e : exn) : M A := fun tr => (Throw e, tr).

Definition bind {A B : Type} (m : M A) (f : A -> M B) : M B :=
  fun tr =>
    match m tr with
    | (Ok a, tr') => f a tr'
    | (Throw e, tr') => (Throw e, tr')
    end.

Definition emit (ev : event) : M unit := fun tr => (Ok tt, (tr ++ [ev])%list).

Definition lift {A : Type} (r : result A) : M A := fun tr => (r, tr).

(** [try { m } catch (error) { handler error }] *)
Definition try_catch {A : Type} (m : M A) (handler : exn -> M A) : M A :=
  fun tr =>
    match m tr with
    | (Ok a, tr') => (Ok a, tr')
    | (Throw e, tr') => handler e tr'
    end.

Declare Scope handler_scope.
Delimit Scope handler_scope with handler.
Notation "x <- m ;; k" := (bind m (fun x => k))
  (at level 61, m at next level, right associativity) : handler_scope.
Notation "m ;;; k" := (bind m (fun _ => k))
  (at level 61, right associativity) : handler_scope.
#[local] Open Scope handler_scope.

(** [await f(args)]: the call is recorded, then its answer is awaited. *)
Definition call {A : Type} (ev : event) (answer : result A) : M A :=
  emit ev ;;; lift answer.

Definition log (l : Logger) (lvl : level) (message : string) : M unit :=
  emit (EvLog l lvl message None).

(** ** Lines 25-60: the inputs, from either call shape *)

Record Resolved : Type := {
  _logger : Logger;
  _walletAddress : option string;
  _issueNodeId : string;
  _evmNetworkId : number;
  _evmPrivateEncrypted : string;
  _userId : number
}.

Definition resolveInputs (contextOrPayload : ContextOrPayload)
           (_username : string) : M Resolved :=
  match contextOrPayload with
  | IsPayload p =>
      ret {| _logger := logger p;
             _walletAddress := Some (walletAddress p);
             _issueNodeId := issueNodeId p;
             _evmNetworkId := evmNetworkId p;
             _evmPrivateEncrypted := evmPrivateEncrypted p;
             _userId := userId p |}
  | IsContext c =>
      userData <- call (EvGetByUsername _username)
                       (octokit_users_getByUsername c _username) ;;
      match userData with
      | None => throw (Error ("GitHub user was not found for id " ++ _username))
      | Some u =>
          wallet <- call (EvGetWalletByUserId (id u))
                         (adapters_supabase_wallet_getWalletByUserId c (id u)) ;;
          match issue (payload c), pull_request (payload c) with
          | Some node_id, _ | None, Some node_id =>
              ret {| _logger := ctx_logger c;
                     _walletAddress := wallet;
                     _issueNodeId := node_id;
                     _evmNetworkId := cfg_evmNetworkId (config c);
                     _evmPrivateEncrypted := cfg_evmPrivateEncrypted (config c);
                     _userId := id u |}
          | None, None => throw (Error "Issue Id is missing")
          end
      end
  end.

(** The network id a call is made with: a field of the payload, or of
    the configuration of the context. *)
Definition inputNetworkId (contextOrPayload : ContextOrPayload) : number :=
  match contextOrPayload with
  | IsPayload p => evmNetworkId p
  | IsContext c => cfg_evmNetworkId (config c)
  end.

(** ** Lines 120-133: the domain handed to the signer *)

(** [s.toString()] on a string. *)
Definition String_toString (s : string) : string := s.

(** [domain.chainId ? domain.chainId.toString() : undefined] tests the
    chain id for truthiness; [domain.salt?.toString()] tests the salt for
    presence only. *)
Definition signerDomain (domain : Permit2.TypedDataDomain) : SignerDomain :=
  {| sd_name := Permit2.name domain;
     sd_version := Permit2.version domain;
     sd_chainId :=
       match Permit2.chainId domain with
       | Some c => if truthy_number c then Some (Number_toString c) else None
       | None => None
       end;
     sd_verifyingContract := Permit2.verifyingContract domain;
     sd_salt := option_map String_toString (Permit2.salt domain) |}.

Section Handler.

(** The Keccak-256 digest function behind ethers' [keccak256]. *)
Variable keccak256_digest : list byte -> list byte.

Variable env : Env.

(** Lines 77-87. *)
Definition decryptPrivateKey (r : Resolved) : M string :=
  try_catch
    (privateKeyDecrypted <-
       call (EvDecrypt (_evmPrivateEncrypted r) (String_of_env (X25519_PRIVATE_KEY env)))
            (decrypt env (_evmPrivateEncrypted r) (String_of_env (X25519_PRIVATE_KEY env))) ;;
     privateKeyParsed <-
       call (EvParseDecryptedPrivateKey privateKeyDecrypted)
            (parseDecryptedPrivateKey env privateKeyDecrypted) ;;
     match privateKey privateKeyParsed with
     | Some k =>
         if truthy_string k then ret k
         else throw (Error "Private key is not defined")
     | None => throw (Error "Private key is not defined")
     end)
    (fun e =>
       let errorMessage := "Failed to decrypt a private key: " ++ String_of_exn e in
       log (_logger r) Lerror errorMessage ;;;
       throw (Error errorMessage)).

(** Lines 92-98. *)
Definition instantiateWallet (r : Resolved) (key : string) (provider : Provider)
  : M Wallet :=
  try_catch
    (a <- call (EvNewWallet key provider) (computeAddress env key) ;;
     ret {| wallet_privateKey := key; wallet_provider := provider; address := a |})
    (fun e =>
       let errorMessage := "Failed to instantiate wallet: " ++ String_of_exn e in
       log (_logger r) Ldebug errorMessage ;;;
       throw (Error errorMessage)).

(** Lines 100-108. *)
Definition fetchDecimals (r : Resolved) (tokenAddress : string)
           (provider : Provider) : M N :=
  try_catch
    (call (EvDecimals tokenAddress provider) (decimals env tokenAddress provider))
    (fun _ =>
       let errorMessage :=
         "Failed to get token decimals for token: " ++ tokenAddress in
       log (_logger r) Ldebug errorMessage ;;;
       throw (Error errorMessage)).

(** Line 116: [BigInt(keccak256(toUtf8Bytes(`${_userId}-${_issueNodeId}`)))]. *)
Definition nonceInput (user : number) (node_id : string) : string :=
  Number_toString user ++ "-" ++ node_id.

Definition deriveNonce (user : number) (node_id : string) : result bigint :=
  match BigInt (Ethers.keccak256 keccak256_digest
                  (Ethers.toUtf8Bytes (nonceInput user node_id))) with
  | Some n => Ok n
  | None => Throw (Foreign "SyntaxError: Cannot convert to a BigInt")
  end.

(** Lines 110-118. *)
Definition buildPermit (r : Resolved) (wallet : string) (amount : number)
           (tokenAddress : string) (tokenDecimals : N) : M Permit2.PermitTransferFrom :=
  raw <- lift (Ethers.parseUnits (Number_toString amount) tokenDecimals) ;;
  n <- lift (deriveNonce (_userId r) (_issueNodeId r)) ;;
  ret {| Permit2.permitted := {| Permit2.token := tokenAddress; Permit2.amount := raw |};
         Permit2.spender := wallet;
         Permit2.nonce := n;
         Permit2.deadline := Ethers.MaxInt256 |}.

(** Lines 120-138. *)
Definition signPermit (r : Resolved) (adminWallet : Wallet)
           (permitTransferFromData : Permit2.PermitTransferFrom) : M string :=
  data <- call (EvGetPermitData permitTransferFromData Permit2.PERMIT2_ADDRESS
                                (_evmNetworkId r))
               (getPermitData env permitTransferFromData Permit2.PERMIT2_ADDRESS
                              (_evmNetworkId r)) ;;
  try_catch
    (call (EvSignTypedData adminWallet (signerDomain (Permit2.domain data))
                           (Permit2.types data) (Permit2.values data))
          (signTypedData env adminWallet (signerDomain (Permit2.domain data))
                         (Permit2.types data) (Permit2.values data)))
    (fun e =>
       let errorMessage := "Failed to sign typed data " ++ String_of_exn e in
       log (_logger r) Lerror errorMessage ;;;
       throw (Error errorMessage)).

(** Lines 140-150. *)
Definition assemble (r : Resolved) (permitTransferFromData : Permit2.PermitTransferFrom)
           (adminWallet : Wallet) (sig : string) : PermitReward :=
  {| tokenType := ERC20;
     tokenAddress := Permit2.token (Permit2.permitted permitTransferFromData);
     beneficiary := Permit2.spender permitTransferFromData;
     nonce := BigInt_toString (Permit2.nonce permitTransferFromData);
     deadline := BigInt_toString (Permit2.deadline permitTransferFromData);
     amount := BigInt_toString (Permit2.amount (Permit2.permitted permitTransferFromData));
     owner := address adminWallet;
     signature := sig;
     networkId := _evmNetworkId r |}.

(** Lines 62-155, once the inputs are resolved. *)
Definition generateFromResolved (r : Resolved) (username : string)
           (amount : number) (tokenAddress : string) : M PermitReward :=
  if negb (truthy_string username) then
    throw (Error "User was not found")
  else
    match _walletAddress r with
    | Some wallet =>
        if truthy_string wallet then
          provider <- call (EvGetFastestProvider (_evmNetworkId r))
                           (getFastestProvider env (_evmNetworkId r)) ;;
          match provider with
          | None =>
              log (_logger r) Lerror "Provider is not defined" ;;;
              throw (Error "Provider is not defined")
          | Some provider =>
              key <- decryptPrivateKey r ;;
              adminWallet <- instantiateWallet r key provider ;;
              tokenDecimals <- fetchDecimals r tokenAddress provider ;;
              permitTransferFromData <- buildPermit r wallet amount tokenAddress tokenDecimals ;;
              sig <- signPermit r adminWallet permitTransferFromData ;;
              let erc20Permit := assemble r permitTransferFromData adminWallet sig in
              emit (EvLog (_logger r) Linfo "Generated ERC20 permit2 signature"
                          (Some erc20Permit)) ;;;
              ret erc20Permit
          end
        else
          log (_logger r) Lerror "ERC20 Permit generation error: Wallet not found" ;;;
          throw (Error "ERC20 Permit generation error: Wallet not found")
    | None =>
        log (_logger r) Lerror "ERC20 Permit generation error: Wallet not found" ;;;
        throw (Error "ERC20 Permit generation error: Wallet not found")
    end.

Definition generateErc20PermitSignature (contextOrPayload : ContextOrPayload)
           (username : string) (amount : number) (tokenAddress : string)
  : M PermitReward :=
  r <- resolveInputs contextOrPayload username ;;
  generateFromResolved r username amount tokenAddress.

(** What the [try] block of lines 78-82 evaluates to on a ciphertext,
    leaving the trace aside: the private key, or the value thrown by
    [decrypt], by [parseDecryptedPrivateKey] or by the check of the key. *)
Definition decryptionOutcome (cipher : string) : result string :=
  match decrypt env cipher (String_of_env (X25519_PRIVATE_KEY env)) with
  | Throw e => Throw e
  | Ok privateKeyDecrypted =>
      match parseDecryptedPrivateKey env privateKeyDecrypted with
      | Throw e => Throw e
      | Ok privateKeyParsed =>
          match privateKey privateKeyParsed with
          | Some k =>
              if truthy_string k then Ok k
              else Throw (Error "Private key is not defined")
          | None => Throw (Error "Private key is not defined")
          end
      end
  end.

(** A call starts with an empty trace. *)
Definition run (contextOrPayload : ContextOrPayload) (username : string)
           (amount : number) (tokenAddress : string) : result PermitReward * trace :=
  generateErc20PermitSignature contextOrPayload username amount tokenAddress [].

End Handler.

(* ================================================================== *)
(** * A concrete scenario, for running the handler *)
(* ================================================================== *)

Module Scenario.

(** A stand-in for the digest: the input cut or zero-padded to 32 bytes.
    It is not Keccak; it only fixes a 32-byte function to compute with. *)
Definition digest (data : list byte) : list byte :=
  firstn 32 (data ++ repeat x00 32)%list.

Definition rpc : Provider := {| provider_url := "https://rpc.example" |}.

Definition env : Env :=
  {| X25519_PRIVATE_KEY := Some "x25519-secret";
     getFastestProvider := fun _ => Ok (Some rpc);
     decrypt := fun cipher _ =>
       if String.eqb cipher "sealed" then Ok "{privateKey}"
       else Throw (Foreign "Error: incorrect key pair for the given ciphertext");
     parseDecryptedPrivateKey := fun _ => Ok {| privateKey := Some "0xkey" |};
     computeAddress := fun _ => Ok "0xAdmin";
     decimals := fun _ _ => Ok 6%N;
     getPermitData := Permit2.getPermitData;
     signTypedData := fun _ _ _ _ => Ok "0xsignature" |}.

(** The same world with another signer answer. *)
Definition env' : Env :=
  {| X25519_PRIVATE_KEY := X25519_PRIVATE_KEY env;
     getFastestProvider := getFastestProvider env;
     decrypt := decrypt env;
     parseDecryptedPrivateKey := parseDecryptedPrivateKey env;
     computeAddress := computeAddress env;
     decimals := decimals env;
     getPermitData := getPermitData env;
     signTypedData := fun _ _ _ _ => Ok "0xothersignature" |}.

(** No connection for any network. *)
Definition env_offline : Env :=
  {| X25519_PRIVATE_KEY := X25519_PRIVATE_KEY env;
     getFastestProvider := fun _ => Ok None;
     decrypt := decrypt env;
     parseDecryptedPrivateKey := parseDecryptedPrivateKey env;
     computeAddress := computeAddress env;
     decimals := decimals env;
     getPermitData := getPermitData env;
     signTypedData := signTypedData env |}.

Definition log0 : Logger := {| logger_id := "console" |}.

(** User 42 (s = 42, two digits, n = 2) on network 100 (s = 1, n = 3). *)
Definition payload0 : Payload :=
  {| evmNetworkId := Finite false 1 3;
     evmPrivateEncrypted := "sealed";
     walletAddress := "0xBeneficiary";
     issueNodeId := "I_kwDOnode";
     logger := log0;
     userId := Finite false 42 2 |}.

(** The same request with a ciphertext that does not decrypt. *)
Definition payload_corrupted : Payload :=
  {| evmNetworkId := evmNetworkId payload0;
     evmPrivateEncrypted := "corrupted";
     walletAddress := walletAddress payload0;
     issueNodeId := issueNodeId payload0;
     logger := logger payload0;
     userId := userId payload0 |}.

(** The same request without a wallet address. *)
Definition payload_no_wallet : Payload :=
  {| evmNetworkId := evmNetworkId payload0;
     evmPrivateEncrypted := evmPrivateEncrypted payload0;
     walletAddress := "";
     issueNodeId := issueNodeId payload0;
     logger := logger payload0;
     userId := userId payload0 |}.

(** The same request on network id 0. *)
Definition payload_network_zero : Payload :=
  {| evmNetworkId := Zero;
     evmPrivateEncrypted := evmPrivateEncrypted payload0;
     walletAddress := walletAddress payload0;
     issueNodeId := issueNodeId payload0;
     logger := logger payload0;
     userId := userId payload0 |}.

(** A context for the same user and event: the user is looked up by
    name, the wallet by user id, the event is an issue. *)
Definition context0 : Context :=
  {| config := {| cfg_evmNetworkId := evmNetworkId payload0;
                  cfg_evmPrivateEncrypted := "sealed" |};
     ctx_logger := log0;
     octokit_users_getByUsername := fun _ => Ok (Some {| id := userId payload0 |});
     adapters_supabase_wallet_getWalletByUserId :=
       fun _ => Ok (Some (walletAddress payload0));
     payload := {| issue := Some (issueNodeId payload0); pull_request := None |} |}.

(** 1.5 is s = 15 (two digits), n = 1. *)
Definition one_and_a_half : number := Finite false 15 1.

(** What both call shapes resolve to. *)
Definition resolved0 : Resolved :=
  {| _logger := log0;
     _walletAddress := Some "0xBeneficiary";
     _issueNodeId := "I_kwDOnode";
     _evmNetworkId := Finite false 1 3;
     _evmPrivateEncrypted := "sealed";
     _userId := Finite false 42 2 |}.

(** The nonce of user 42 on that node under [digest]. *)
Definition nonce0 : bigint :=
  Eval vm_compute in
    Ethers.be_value 0 (digest (Ethers.toUtf8Bytes "42-I_kwDOnode")).

Definition permit_of (raw : bigint) : Permit2.PermitTransferFrom :=
  {| Permit2.permitted := {| Permit2.token := "0xToken"; Permit2.amount := raw |};
     Permit2.spender := "0xBeneficiary";
     Permit2.nonce := nonce0;
     Permit2.deadline := Ethers.MaxInt256 |}.

Definition wallet0 : Wallet :=
  {| wallet_privateKey := "0xkey"; wallet_provider := rpc; address := "0xAdmin" |}.

(** The reward for 1.5 tokens and the reward for none, as [env] signs. *)
Definition reward_of (raw : bigint) (network : number) (sig : string) : PermitReward :=
  {| tokenType := ERC20;
     tokenAddress := "0xToken";
     beneficiary := "0xBeneficiary";
     nonce := BigInt_toString nonce0;
     deadline := BigInt_toString Ethers.MaxInt256;
     amount := BigInt_toString raw;
     owner := "0xAdmin";
     signature := sig;
     networkId := network |}.

Definition reward0 : PermitReward :=
  reward_of 1500000 (Finite false 1 3) "0xsignature".

(** The trace of a successful call in the payload shape on [network]. *)
Definition trace_of (raw : bigint) (network : number) (sig : string) : trace :=
  [ EvGetFastestProvider network;
    EvDecrypt "sealed" "x25519-secret";
    EvParseDecryptedPrivateKey "{privateKey}";
    EvNewWallet "0xkey" rpc;
    EvDecimals "0xToken" rpc;
    EvGetPermitData (permit_of raw) Permit2.PERMIT2_ADDRESS network;
    EvSignTypedData wallet0
      (signerDomain (Permit2.permit2Domain Permit2.PERMIT2_ADDRESS network))
      Permit2.PERMIT_TRANSFER_FROM_TYPES (permit_of raw);
    EvLog log0 Linfo "Generated ERC20 permit2 signature"
          (Some (reward_of raw network sig)) ].

End Scenario.

(* ================================================================== *)
(** * Vocabulary for the remaining paths of the handler *)
(* ================================================================== *)

(** The encrypted key a call is made with. *)
Definition inputEncrypted (contextOrPayload : ContextOrPayload) : string :=
  match contextOrPayload with
  | IsPayload p => evmPrivateEncrypted p
  | IsContext c => cfg_evmPrivateEncrypted (config c)
  end.

(** The logger a call is made with. *)
Definition inputLogger (contextOrPayload : ContextOrPayload) : Logger :=
  match contextOrPayload with
  | IsPayload p => logger p
  | IsContext c => ctx_logger c
  end.

Definition is_wallet_instantiation (ev : event) : bool :=
  match ev with
  | EvNewWallet _ _ => true
  | _ => false
  end.

Definition is_permit_data (ev : event) : bool :=
  match ev with
  | EvGetPermitData _ _ _ => true
  | _ => false
  end.

Definition is_log (ev : event) : bool :=
  match ev with
  | EvLog _ _ _ _ => true
  | _ => false
  end.

Definition is_user_lookup (ev : event) : bool :=
  match ev with
  | EvGetByUsername _ => true
  | _ => false
  end.

Definition is_wallet_lookup (ev : event) : bool :=
  match ev with
  | EvGetWalletByUserId _ => true
  | _ => false
  end.

Definition is_decrypt_call (ev : event) : bool :=
  match ev with
  | EvDecrypt _ _ => true
  | _ => false
  end.

Definition is_key_parsing (ev : event) : bool :=
  match ev with
  | EvParseDecryptedPrivateKey _ => true
  | _ => false
  end.

(** How many events of the trace satisfy [p]. *)
Definition count (p : event -> bool) (tr : trace) : nat :=
  List.length (filter p tr).

(** The kinds of external calls the handler makes. *)
Definition call_kinds : list (event -> bool) :=
  [ is_user_lookup; is_wallet_lookup; is_provider_resolution; is_decrypt_call;
    is_key_parsing; is_wallet_instantiation; is_decimals_fetch; is_permit_data;
    is_signing ].

(** Numbers that [toString] prints in plain decimal notation: zero and
    the finite numbers with [-6 < n <= 21].  The others print as "NaN",
    "Infinity" or in exponent notation. *)
Definition prints_in_decimal_notation (x : number) : bool :=
  match x with
  | Zero => true
  | Finite _ _ n => (-6 <? n) && (n <=? 21)
  | NaN | Infinity _ => false
  end.

(** The number of digits a number prints after the decimal point. *)
Definition fraction_digits (x : number) : Z :=
  match x with
  | Finite _ s n => Z.max 0 (Z.of_nat (String.length (digits_of s)) - n)
  | _ => 0
  end.

(** ** More scenarios: one failing collaborator each *)

Module Failures.
Import Scenario.

Definition with_computeAddress (f : string -> result string) : Env :=
  {| X25519_PRIVATE_KEY := X25519_PRIVATE_KEY env;
     getFastestProvider := getFastestProvider env;
     decrypt := decrypt env;
     parseDecryptedPrivateKey := parseDecryptedPrivateKey env;
     computeAddress := f;
     decimals := decimals env;
     getPermitData := getPermitData env;
     signTypedData := signTypedData env |}.

Definition with_decimals (f : string -> Provider -> result N) : Env :=
  {| X25519_PRIVATE_KEY := X25519_PRIVATE_KEY env;
     getFastestProvider := getFastestProvider env;
     decrypt := decrypt env;
     parseDecryptedPrivateKey := parseDecryptedPrivateKey env;
     computeAddress := computeAddress env;
     decimals := f;
     getPermitData := getPermitData env;
     signTypedData := signTypedData env |}.

Definition with_getPermitData
           (f : Permit2.PermitTransferFrom -> string -> number ->
                result Permit2.PermitTransferFromData) : Env :=
  {| X25519_PRIVATE_KEY := X25519_PRIVATE_KEY env;
     getFastestProvider := getFastestProvider env;
     decrypt := decrypt env;
     parseDecryptedPrivateKey := parseDecryptedPrivateKey env;
     computeAddress := computeAddress env;
     decimals := decimals env;
     getPermitData := f;
     signTypedData := signTypedData env |}.

Definition with_signTypedData
           (f : Wallet -> SignerDomain -> Permit2.TypedDataTypes ->
                Permit2.PermitTransferFrom -> result string) : Env :=
  {| X25519_PRIVATE_KEY := X25519_PRIVATE_KEY env;
     getFastestProvider := getFastestProvider env;
     decrypt := decrypt env;
     parseDecryptedPrivateKey := parseDecryptedPrivateKey env;
     computeAddress := computeAddress env;
     decimals := decimals env;
     getPermitData := getPermitData env;
     signTypedData := f |}.

(** The environment variable is not set; decryption needs the right
    secret. *)
Definition env_without_secret : Env :=
  {| X25519_PRIVATE_KEY := None;
     getFastestProvider := getFastestProvider env;
     decrypt := fun cipher secret =>
       if String.eqb secret "x25519-secret" then decrypt env cipher secret
       else Throw (Foreign "Error: incorrect key pair for the given ciphertext");
     parseDecryptedPrivateKey := parseDecryptedPrivateKey env;
     computeAddress := computeAddress env;
     decimals := decimals env;
     getPermitData := getPermitData env;
     signTypedData := signTypedData env |}.

Definition env_bad_key : Env :=
  with_computeAddress (fun _ => Throw (Foreign "TypeError: invalid private key")).

Definition env_no_decimals : Env :=
  with_decimals (fun _ _ => Throw (Foreign "Error: could not decode result data")).

Definition env_sdk_rejects : Env :=
  with_getPermitData
    (fun _ _ _ => Throw (Foreign "Error: Invariant failed: AMOUNT_OUT_OF_RANGE")).

Definition env_signer_rejects : Env :=
  with_signTypedData (fun _ _ _ _ => Throw (Foreign "Error: invalid address")).

(** The provider selection rejects. *)
Definition env_provider_rejects : Env :=
  {| X25519_PRIVATE_KEY := X25519_PRIVATE_KEY env;
     getFastestProvider := fun _ => Throw (Foreign "Error: no RPC is available");
     decrypt := decrypt env;
     parseDecryptedPrivateKey := parseDecryptedPrivateKey env;
     computeAddress := computeAddress env;
     decimals := decimals env;
     getPermitData := getPermitData env;
     signTypedData := signTypedData env |}.

(** The decrypted record holds an empty private key. *)
Definition env_empty_key : Env :=
  {| X25519_PRIVATE_KEY := X25519_PRIVATE_KEY env;
     getFastestProvider := getFastestProvider env;
     decrypt := decrypt env;
     parseDecryptedPrivateKey := fun _ => Ok {| privateKey := Some "" |};
     computeAddress := computeAddress env;
     decimals := decimals env;
     getPermitData := getPermitData env;
     signTypedData := signTypedData env |}.

(** A token with 18 decimals. *)
Definition env_18_decimals : Env := with_decimals (fun _ _ => Ok 18%N).

(** The double 0.1, that is 0x3FB999999999999A, and the number it
    prints as: "0.1", one digit [s = 1] and [n = 0]. *)
Definition tenth : binary64 :=
  {| b_negative := false; b_mantissa := 7205759403792794; b_exponent := -56 |}.

Definition printed_tenth : number := Finite false 1 0.

(** A token with no decimals: 1.5 of it cannot be scaled. *)
Definition env_whole_units : Env := with_decimals (fun _ _ => Ok 0%N).

(** GitHub knows no such user. *)
Definition context_unknown_user : Context :=
  {| config := config context0;
     ctx_logger := ctx_logger context0;
     octokit_users_getByUsername := fun _ => Ok None;
     adapters_supabase_wallet_getWalletByUserId :=
       adapters_supabase_wallet_getWalletByUserId context0;
     payload := payload context0 |}.

(** The wallet adapter rejects. *)
Definition context_adapter_rejects : Context :=
  {| config := config context0;
     ctx_logger := ctx_logger context0;
     octokit_users_getByUsername := octokit_users_getByUsername context0;
     adapters_supabase_wallet_getWalletByUserId :=
       fun _ => Throw (Foreign "Error: connection refused");
     payload := payload context0 |}.

(** An event that is neither an issue nor a pull request. *)
Definition context_without_event : Context :=
  {| config := config context0;
     ctx_logger := ctx_logger context0;
     octokit_users_getByUsername := octokit_users_getByUsername context0;
     adapters_supabase_wallet_getWalletByUserId :=
       adapters_supabase_wallet_getWalletByUserId context0;
     payload := {| issue := None; pull_request := None |} |}.

(** An event that carries both keys, and one that is a pull request. *)
Definition context_with (event : EventPayload) : Context :=
  {| config := config context0;
     ctx_logger := ctx_logger context0;
     octokit_users_getByUsername := octokit_users_getByUsername context0;
     adapters_supabase_wallet_getWalletByUserId :=
       adapters_supabase_wallet_getWalletByUserId context0;
     payload := event |}.

Definition pull_request_event : EventPayload :=
  {| issue := None; pull_request := Some "PR_kwDOnode" |}.

(** The reward of the scenario with another nonce. *)
Definition reward_of_nonce (n : bigint) : PermitReward :=
  {| tokenType := ERC20;
     tokenAddress := "0xToken";
     beneficiary := "0xBeneficiary";
     nonce := BigInt_toString n;
     deadline := BigInt_toString Ethers.MaxInt256;
     amount := BigInt_toString 1500000;
     owner := "0xAdmin";
     signature := "0xsignature";
     networkId := Finite false 1 3 |}.

(** The calls the theorems are tried on. *)
Definition call_in (e : Env) (amount0 : number) : result PermitReward * trace :=
  run digest e (IsPayload payload0) "alice" amount0 "0xToken".

Definition call_on (c : Context) (username : string)
  : result PermitReward * trace :=
  run digest env (IsContext c) username one_and_a_half "0xToken".

End Failures.

(* ================================================================== *)
(** * Proof steps for the handler *)
(* ================================================================== *)

(** Unfold one layer of the monad and of the stages. *)
Ltac unfold_handler :=
  cbv [run generateErc20PermitSignature generateFromResolved decryptPrivateKey
       instantiateWallet fetchDecimals buildPermit signPermit resolveInputs
       bind call emit lift try_catch log ret throw] in *.

(** Split on the innermost scrutinee of a [match] in the term [T]. *)
Ltac split_scrutinee T :=
  match T with
  | context [match ?x with _ => _ end] =>
      first [ split_scrutinee x
            | let E := fresh "E" in destruct x eqn:E ]
  end.

(** One more branch of the handler in hypothesis [H]; branches that
    contradict [H] are closed at once. *)
Ltac step_hyp H :=
  match type of H with
  | ?T => split_scrutinee T
  end; try discriminate H.

(** Every path of the handler, one goal a path, each with the equation
    [H] between the outcome of that path and the given one. *)
Ltac all_paths H := unfold_handler; repeat step_hyp H.

(** Bring a membership in a computed trace to a case on its events. *)
Ltac in_cases Hin :=
  simpl in Hin;
  repeat match type of Hin with
         | _ \/ _ => destruct Hin as [Hin|Hin]
         end;
  try contradiction; try discriminate Hin.

(* ================================================================== *)
(** * Facts about the built-ins *)
(* ================================================================== *)

(** The printers and parsers on a few inputs. *)

Example Number_toString_15 :
  Js.Number_toString (Js.Finite false 15 1) = "1.5".
Proof. reflexivity. Qed.

Example Number_toString_small :
  Js.Number_toString (Js.Finite false 1 (-6)) = "1e-7".
Proof. reflexivity. Qed.

Example Number_toString_big :
  Js.Number_toString (Js.Finite true 123 22) = "-1.23e+21".
Proof. reflexivity. Qed.

Example Number_toString_frac :
  Js.Number_toString (Js.Finite false 25 (-2)) = "0.0025".
Proof. reflexivity. Qed.

Example parseUnits_1_5 : Ethers.parseUnits "1.5" 6 = Js.Ok 1500000.
Proof. reflexivity. Qed.

Example parseUnits_neg : Ethers.parseUnits "-.5" 2 = Js.Ok (-50).
Proof. reflexivity. Qed.

Example parseUnits_underflow :
  Ethers.parseUnits "1.5" 0 = Js.Throw (Js.Foreign "too many decimals for format").
Proof. reflexivity. Qed.

Example parseUnits_trailing : Ethers.parseUnits "1.500" 1 = Js.Ok 15.
Proof. reflexivity. Qed.

Example parseUnits_exponent :
  Ethers.parseUnits "1e-7" 18 = Js.Throw (Js.Foreign "invalid FixedNumber string value").
Proof. reflexivity. Qed.

Example hexlify_bytes : Ethers.hexlify [x00; x0f; xa5; xff]%byte = "0x000fa5ff".
Proof. reflexivity. Qed.

Example BigInt_hex : Js.BigInt "0x000fa5ff" = Some 1025535.
Proof. reflexivity. Qed.

Lemma append_nil_r (s : string) : s ++ "" = s.
Proof. induction s as [|c r IH]; simpl; [reflexivity | now rewrite IH]. Qed.

Lemma append_assoc (a b c : string) : (a ++ b) ++ c = a ++ b ++ c.
Proof. induction a as [|x r IH]; simpl; [reflexivity | now rewrite IH]. Qed.

Lemma length_append (a b : string) :
  String.length (a ++ b) = (String.length a + String.length b)%nat.
Proof. induction a as [|x r IH]; simpl; [reflexivity | now rewrite IH]. Qed.

Lemma length_zeros (n : nat) : String.length (zeros n) = n.
Proof. induction n as [|n IH]; simpl; [reflexivity | now rewrite IH]. Qed.

Lemma zeros_add (n m : nat) : zeros (n + m) = zeros n ++ zeros m.
Proof. induction n as [|n IH]; simpl; [reflexivity | now rewrite IH]. Qed.

Lemma substring_all (s : string) (m : nat) :
  (String.length s <= m)%nat -> substring 0 m s = s.
Proof.
  revert m; induction s as [|c r IH]; intros [|m] H; simpl in *;
    try reflexivity; try lia.
  now rewrite IH by lia.
Qed.

Lemma substring_append_l (a b : string) (m : nat) :
  (m <= String.length a)%nat -> substring 0 m (a ++ b) = substring 0 m a.
Proof.
  revert m; induction a as [|c r IH]; intros [|m] H; simpl in *;
    try reflexivity; try lia.
  - now destruct b.
  - now rewrite IH by lia.
Qed.

Lemma substring_append_r (a b : string) (m : nat) :
  substring (String.length a) m (a ++ b) = substring 0 m b.
Proof. induction a as [|c r IH]; simpl; [reflexivity | exact IH]. Qed.

Lemma substring_skip (a b : string) (n m : nat) :
  (String.length a <= n)%nat ->
  substring n m (a ++ b) = substring (n - String.length a) m b.
Proof.
  revert n; induction a as [|c r IH]; intros n H; simpl in *.
  - now rewrite Nat.sub_0_r.
  - destruct n as [|n]; [lia|]. simpl. apply IH. lia.
Qed.

(** A string is its first [n] characters followed by the rest. *)
Lemma substring_split (s : string) (n : nat) :
  (n <= String.length s)%nat ->
  s = substring 0 n s ++ substring n (String.length s - n) s.
Proof.
  revert n; induction s as [|c r IH]; intros [|n] H; simpl in *;
    try reflexivity; try lia.
  - now rewrite substring_all by lia.
  - f_equal. apply IH. lia.
Qed.

Lemma length_substring (s : string) (n m : nat) :
  (n + m <= String.length s)%nat -> String.length (substring n m s) = m.
Proof.
  revert n m; induction s as [|c r IH]; intros [|n] [|m] H; simpl in *;
    try reflexivity; try lia.
  - now rewrite (IH 0%nat m) by lia.
  - apply IH. lia.
  - apply IH. lia.
Qed.

Lemma parse_radix_append radix digit (a b : string) (acc : Z) :
  parse_radix radix digit acc (a ++ b) =
  match parse_radix radix digit acc a with
  | Some v => parse_radix radix digit v b
  | None => None
  end.
Proof.
  revert acc; induction a as [|c r IH]; intro acc; simpl; [reflexivity|].
  destruct (digit c); [apply IH | reflexivity].
Qed.

Lemma parse10_zeros (n : nat) (acc : Z) :
  (parse_radix 10 dec_digit) acc (zeros n) = Some (acc * 10 ^ Z.of_nat n).
Proof.
  revert acc; induction n as [|n IH]; intro acc.
  - simpl. f_equal. lia.
  - cbn [zeros parse_radix]. change (dec_digit "0") with (Some 0). cbv iota.
    rewrite IH, Nat2Z.inj_succ, Z.pow_succ_r by lia. f_equal. lia.
Qed.

Lemma all_zeros_zeros (s : string) :
  all_zeros s = true -> s = zeros (String.length s).
Proof.
  induction s as [|c r IH]; simpl; [reflexivity|].
  intros [Hc Hr]%andb_true_iff. apply Ascii.eqb_eq in Hc. subst c.
  now rewrite <- IH.
Qed.

Lemma all_zeros_of_zeros (n : nat) : all_zeros (zeros n) = true.
Proof. induction n as [|n IH]; simpl; [reflexivity | exact IH]. Qed.

Lemma all_digits_zeros (n : nat) : all_digits (zeros n) = true.
Proof. induction n as [|n IH]; simpl; [reflexivity | exact IH]. Qed.

Lemma all_digits_append (a b : string) :
  all_digits (a ++ b) = all_digits a && all_digits b.
Proof.
  induction a as [|c r IH]; simpl; [reflexivity|].
  now rewrite IH, andb_assoc.
Qed.

Lemma all_digits_substring (s : string) (n m : nat) :
  all_digits s = true -> all_digits (substring n m s) = true.
Proof.
  revert n m; induction s as [|c r IH]; intros n m H.
  - now destruct n, m.
  - simpl in H. apply andb_true_iff in H as [Hc Hr].
    destruct n as [|n]; simpl.
    + destruct m as [|m]; simpl; [reflexivity|].
      now rewrite Hc, (IH 0%nat m Hr).
    + now apply IH.
Qed.

(** On digit strings the parser never fails, and the accumulator is a
    left shift of the result. *)
Lemma parse10_digits (s : string) (acc : Z) :
  all_digits s = true ->
  exists v, (parse_radix 10 dec_digit) 0 s = Some v /\ 0 <= v /\
            (parse_radix 10 dec_digit) acc s = Some (acc * 10 ^ Z.of_nat (String.length s) + v).
Proof.
  revert acc; induction s as [|c r IH]; intros acc H.
  - exists 0. simpl. split; [reflexivity | split; [lia | f_equal; lia]].
  - simpl in H. apply andb_true_iff in H as [Hc Hr].
    unfold is_digit in Hc. cbn [parse_radix].
    destruct (dec_digit c) as [d|] eqn:Hd; [|discriminate].
    assert (0 <= d <= 9) as Hrange.
    { unfold dec_digit in Hd.
      destruct ((48 <=? Z.of_nat (nat_of_ascii c)) &&
                (Z.of_nat (nat_of_ascii c) <=? 57)) eqn:E; [|discriminate].
      injection Hd as <-. apply andb_true_iff in E as [E1 E2]. lia. }
    destruct (IH (10 * 0 + d) Hr) as (v & Hv0 & Hvpos & Hv).
    destruct (IH (10 * acc + d) Hr) as (v' & Hv0' & _ & Hv').
    rewrite Hv0 in Hv0'. injection Hv0' as <-.
    exists (d * 10 ^ Z.of_nat (String.length r) + v).
    rewrite Hv, Hv'. cbn [String.length]. rewrite Nat2Z.inj_succ, Z.pow_succ_r by lia.
    split; [|split].
    + f_equal; lia.
    + apply Z.add_nonneg_nonneg; [apply Z.mul_nonneg_nonneg|]; try lia.
    + f_equal; lia.
Qed.

(** The decimal digits of a positive number, read back. *)
Lemma parse10_uint_acc (u : uint) (acc : positive) :
  (parse_radix 10 dec_digit) (Z.pos acc) (NilEmpty.string_of_uint u) =
  Some (Z.pos (Pos.of_uint_acc u acc)).
Proof.
  revert acc; induction u; intro acc; cbn [NilEmpty.string_of_uint parse_radix Pos.of_uint_acc];
    try reflexivity;
    match goal with
    | |- context [dec_digit ?c] =>
        let d := eval vm_compute in (dec_digit c) in change (dec_digit c) with d
    end; cbv iota;
    match goal with
    | |- (parse_radix 10 dec_digit) ?a _ = Some (Z.pos (Pos.of_uint_acc _ ?p)) =>
        replace a with (Z.pos p) by lia
    end; apply IHu.
Qed.

Lemma parse10_uint (u : uint) :
  (parse_radix 10 dec_digit) 0 (NilEmpty.string_of_uint u) = Some (Z.of_N (Pos.of_uint u)).
Proof.
  induction u; cbn [NilEmpty.string_of_uint parse_radix Pos.of_uint];
    try reflexivity;
    match goal with
    | |- context [dec_digit ?c] =>
        let d := eval vm_compute in (dec_digit c) in change (dec_digit c) with d
    end; cbv iota; try exact IHu;
    match goal with
    | |- (parse_radix 10 dec_digit) ?a _ = _ => let a' := eval vm_compute in a in change a with a'
    end; rewrite parse10_uint_acc; reflexivity.
Qed.

Lemma all_digits_uint (u : uint) :
  all_digits (NilEmpty.string_of_uint u) = true.
Proof. induction u; simpl; auto. Qed.

Lemma parse10_digits_of (s : positive) :
  (parse_radix 10 dec_digit) 0 (digits_of s) = Some (Z.pos s).
Proof.
  unfold digits_of. rewrite parse10_uint, DecimalPos.Unsigned.of_to. reflexivity.
Qed.

Lemma all_digits_digits_of (s : positive) : all_digits (digits_of s) = true.
Proof. apply all_digits_uint. Qed.

Lemma digits_of_nonempty (s : positive) : digits_of s <> "".
Proof.
  unfold digits_of. intro H.
  pose proof (DecimalPos.Unsigned.to_uint_nonnil s) as Hn.
  destruct (Pos.to_uint s); simpl in H; try discriminate. now apply Hn.
Qed.

Lemma length_digits_of_pos (s : positive) :
  (0 < String.length (digits_of s))%nat.
Proof.
  pose proof (digits_of_nonempty s).
  destruct (digits_of s); simpl; [congruence | lia].
Qed.

Lemma parse_dec_nonempty (s : string) :
  s <> "" -> parse_dec s = (parse_radix 10 dec_digit) 0 s.
Proof. destruct s; [congruence | reflexivity]. Qed.

(** An unsigned digit string is read in decimal: a digit is neither a
    sign nor, after a leading "0", the "x" of a hexadecimal prefix. *)
Lemma BigInt_digits (s : string) :
  all_digits s = true -> s <> "" -> BigInt s = (parse_radix 10 dec_digit) 0 s.
Proof.
  destruct s as [|c r]; [congruence|]. intros H _.
  simpl in H. apply andb_true_iff in H as [Hc Hr].
  destruct c as [[|] [|] [|] [|] [|] [|] [|] [|]]; try discriminate Hc;
    try reflexivity.
  destruct r as [|c' r']; [reflexivity|].
  simpl in Hr. apply andb_true_iff in Hr as [Hc' _].
  destruct c' as [[|] [|] [|] [|] [|] [|] [|] [|]]; try discriminate Hc';
    reflexivity.
Qed.

Lemma BigInt_signed_digits (neg : bool) (s : string) :
  all_digits s = true -> s <> "" ->
  BigInt (sign_prefix neg ++ s) =
  option_map (fun v => if neg then - v else v) ((parse_radix 10 dec_digit) 0 s).
Proof.
  intros H Hne. destruct neg; simpl.
  - now rewrite parse_dec_nonempty.
  - rewrite BigInt_digits by assumption. now destruct ((parse_radix 10 dec_digit) 0 s).
Qed.

(** Printing a bigint and reading it back gives the bigint: the string
    [BigInt_toString b] is a decimal representation of [b]. *)
Lemma BigInt_toString_roundtrip (b : bigint) : BigInt (BigInt_toString b) = Some b.
Proof.
  unfold BigInt_toString. destruct b as [|p|p]; [reflexivity| |].
  - cbn [Z.to_int NilZero.string_of_int NilZero.string_of_uint].
    change (match Pos.to_uint p with Nil => "0" | _ => NilEmpty.string_of_uint (Pos.to_uint p) end)
      with (NilZero.string_of_uint (Pos.to_uint p)).
    assert (NilZero.string_of_uint (Pos.to_uint p) = digits_of p) as ->.
    { unfold digits_of, NilZero.string_of_uint.
      pose proof (DecimalPos.Unsigned.to_uint_nonnil p).
      destruct (Pos.to_uint p); congruence. }
    rewrite BigInt_digits
      by (apply all_digits_digits_of || apply digits_of_nonempty).
    apply parse10_digits_of.
  - cbn [Z.to_int NilZero.string_of_int].
    assert (NilZero.string_of_uint (Pos.to_uint p) = digits_of p) as ->.
    { unfold digits_of, NilZero.string_of_uint.
      pose proof (DecimalPos.Unsigned.to_uint_nonnil p).
      destruct (Pos.to_uint p); congruence. }
    change (BigInt (String "-" (digits_of p)))
      with (option_map Z.opp (parse_dec (digits_of p))).
    rewrite parse_dec_nonempty by apply digits_of_nonempty.
    now rewrite parse10_digits_of.
Qed.

Lemma BigInt_toString_inj (a b : bigint) :
  BigInt_toString a = BigInt_toString b -> a = b.
Proof.
  intro H. apply (f_equal BigInt) in H.
  rewrite !BigInt_toString_roundtrip in H. congruence.
Qed.

Lemma hex_digit_hex_char (b : byte) :
  hex_digit (Ethers.hex_char (Byte.to_N b / 16)) = Some (Z.of_N (Byte.to_N b / 16)) /\
  hex_digit (Ethers.hex_char (Byte.to_N b mod 16)) = Some (Z.of_N (Byte.to_N b mod 16)).
Proof. destruct b; split; reflexivity. Qed.

Lemma byte_nibbles (b : byte) :
  16 * Z.of_N (Byte.to_N b / 16) + Z.of_N (Byte.to_N b mod 16) = Z.of_N (Byte.to_N b).
Proof. destruct b; reflexivity. Qed.

(** The hexadecimal digits of a byte string read back as its big-endian
    value. *)
Lemma parse_hex_of_bytes (bs : list byte) (acc : Z) :
  parse_radix 16 hex_digit acc (Ethers.hex_of_bytes bs) =
  Some (Ethers.be_value acc bs).
Proof.
  revert acc; induction bs as [|b r IH]; intro acc; [reflexivity|].
  cbn [Ethers.hex_of_bytes parse_radix Ethers.be_value].
  destruct (hex_digit_hex_char b) as [-> ->].
  rewrite IH. do 2 f_equal. pose proof (byte_nibbles b). lia.
Qed.

Lemma BigInt_hexlify (bs : list byte) :
  BigInt (Ethers.hexlify bs) =
  match bs with
  | [] => None
  | _ => Some (Ethers.be_value 0 bs)
  end.
Proof.
  unfold Ethers.hexlify. cbn [String.append BigInt].
  change (BigInt (String "0" (String "x" (Ethers.hex_of_bytes bs))))
    with (parse_hex (Ethers.hex_of_bytes bs)).
  destruct bs as [|b r]; [reflexivity|].
  unfold parse_hex.
  change (Ethers.hex_of_bytes (b :: r))
    with (String (Ethers.hex_char (Byte.to_N b / 16))
            (String (Ethers.hex_char (Byte.to_N b mod 16)) (Ethers.hex_of_bytes r))).
  cbv iota.
  change (String (Ethers.hex_char (Byte.to_N b / 16))
            (String (Ethers.hex_char (Byte.to_N b mod 16)) (Ethers.hex_of_bytes r)))
    with (Ethers.hex_of_bytes (b :: r)).
  apply parse_hex_of_bytes.
Qed.

Lemma be_value_bounds (bs : list byte) (acc : Z) :
  0 <= acc ->
  0 <= Ethers.be_value acc bs < (acc + 1) * 256 ^ Z.of_nat (List.length bs).
Proof.
  revert acc; induction bs as [|b r IH]; intros acc Hacc.
  - simpl. lia.
  - cbn [Ethers.be_value List.length].
    pose proof (Byte.to_N_bounded b) as Hb.
    assert (0 <= Z.of_N (Byte.to_N b) <= 255) as Hb' by lia.
    specialize (IH (256 * acc + Z.of_N (Byte.to_N b)) ltac:(lia)).
    rewrite Nat2Z.inj_succ, Z.pow_succ_r by lia.
    assert (0 < 256 ^ Z.of_nat (List.length r)) by (apply Z.pow_pos_nonneg; lia).
    nia.
Qed.

(** The value of a 32-byte digest is an unsigned 256-bit integer. *)
Lemma be_value_uint256 (bs : list byte) :
  List.length bs = 32%nat -> 0 <= Ethers.be_value 0 bs < 2 ^ 256.
Proof.
  intro H. pose proof (be_value_bounds bs 0 ltac:(lia)) as B.
  rewrite H in B. change (256 ^ Z.of_nat 32) with (2 ^ 256) in B. lia.
Qed.

Lemma span_digits_append (a b : string) :
  all_digits a = true -> Ethers.starts_without_digit b ->
  Ethers.span_digits (a ++ b) = (a, b).
Proof.
  intros Ha Hb. induction a as [|c r IH]; simpl.
  - destruct b as [|c r]; [reflexivity|]. simpl in *. now rewrite Hb.
  - simpl in Ha. apply andb_true_iff in Ha as [Hc Hr].
    now rewrite Hc, IH.
Qed.

Lemma span_digits_all (a : string) :
  all_digits a = true -> Ethers.span_digits a = (a, "").
Proof.
  intro Ha. rewrite <- (append_nil_r a) at 1.
  now apply span_digits_append.
Qed.

Lemma strip_sign_prefix (neg : bool) (c : ascii) (r : string) :
  c <> "-"%char ->
  Ethers.strip_sign (sign_prefix neg ++ String c r) = (neg, String c r).
Proof.
  intro Hc. destruct neg; [reflexivity|]. simpl.
  destruct c as [[|] [|] [|] [|] [|] [|] [|] [|]]; try reflexivity.
  now elim Hc.
Qed.

Lemma digit_not_minus (c : ascii) : is_digit c = true -> c <> "-"%char.
Proof. intros H ->. discriminate H. Qed.

(** What the pattern captures on "[-]w", "[-]w.f" and on such a string
    followed by a character that is neither a digit nor a point. *)
Lemma match_fixed_whole (neg : bool) (w : string) :
  all_digits w = true -> w <> "" ->
  Ethers.match_fixed (sign_prefix neg ++ w) = Some (neg, w, "").
Proof.
  intros Hw Hne. destruct w as [|c r]; [congruence|].
  unfold Ethers.match_fixed.
  rewrite strip_sign_prefix
    by (apply digit_not_minus; simpl in Hw; now apply andb_true_iff in Hw as [? _]).
  now rewrite span_digits_all.
Qed.

Lemma match_fixed_point (neg : bool) (w f : string) :
  all_digits w = true -> w <> "" -> all_digits f = true ->
  Ethers.match_fixed (sign_prefix neg ++ w ++ "." ++ f) = Some (neg, w, f).
Proof.
  intros Hw Hne Hf. destruct w as [|c r]; [congruence|].
  unfold Ethers.match_fixed. cbn [String.append].
  change (String c (r ++ String "." f)) with (String c r ++ String "." f).
  change (sign_prefix neg ++ String c r ++ String "." f)
    with (sign_prefix neg ++ String c (r ++ String "." f)).
  rewrite strip_sign_prefix
    by (apply digit_not_minus; simpl in Hw; now apply andb_true_iff in Hw as [? _]).
  change (String c (r ++ String "." f)) with (String c r ++ String "." f).
  rewrite span_digits_append by (assumption || reflexivity).
  now rewrite span_digits_all.
Qed.

Lemma match_fixed_exponent (neg : bool) (w rest : string) :
  all_digits w = true -> w <> "" ->
  Ethers.match_fixed (sign_prefix neg ++ w ++ "e" ++ rest) = None.
Proof.
  change ("e" ++ rest) with (String "e" rest).
  intros Hw Hne. destruct w as [|c r]; [congruence|].
  unfold Ethers.match_fixed.
  change (sign_prefix neg ++ String c r ++ String "e" rest)
    with (sign_prefix neg ++ String c (r ++ String "e" rest)).
  rewrite strip_sign_prefix
    by (apply digit_not_minus; simpl in Hw; now apply andb_true_iff in Hw as [? _]).
  change (String c (r ++ String "e" rest)) with (String c r ++ String "e" rest).
  rewrite span_digits_append by (assumption || reflexivity).
  reflexivity.
Qed.

Lemma match_fixed_point_exponent (neg : bool) (w f rest : string) :
  all_digits w = true -> w <> "" -> all_digits f = true ->
  Ethers.match_fixed (sign_prefix neg ++ w ++ "." ++ f ++ "e" ++ rest) = None.
Proof.
  change ("e" ++ rest) with (String "e" rest).
  intros Hw Hne Hf. destruct w as [|c r]; [congruence|].
  unfold Ethers.match_fixed. cbn [String.append].
  change (sign_prefix neg ++ String c (r ++ String "." (f ++ String "e" rest)))
    with (sign_prefix neg ++ String c (r ++ String "." (f ++ String "e" rest))).
  rewrite strip_sign_prefix
    by (apply digit_not_minus; simpl in Hw; now apply andb_true_iff in Hw as [? _]).
  change (String c (r ++ String "." (f ++ String "e" rest)))
    with (String c r ++ String "." (f ++ String "e" rest)).
  rewrite span_digits_append by (assumption || reflexivity).
  rewrite span_digits_append by (assumption || reflexivity).
  reflexivity.
Qed.

Lemma or_zero_digits (w : string) :
  all_digits w = true ->
  all_digits (Ethers.or_zero w) = true /\ Ethers.or_zero w <> "".
Proof. destruct w; simpl; intro H; split; try assumption; try reflexivity; discriminate. Qed.

Lemma substring_pad (f : string) (n j : nat) :
  (String.length f <= n <= String.length f + j)%nat ->
  substring 0 n (f ++ zeros j) = f ++ zeros (n - String.length f).
Proof.
  intros [H1 H2].
  replace j with ((n - String.length f) + (j - (n - String.length f)))%nat by lia.
  rewrite zeros_add, <- append_assoc.
  rewrite substring_append_l by (rewrite length_append, length_zeros; lia).
  apply substring_all. rewrite length_append, length_zeros. lia.
Qed.

Lemma pad_blocks_enough (x : nat) : (x <= 4 * ((x + 3) / 4))%nat.
Proof.
  pose proof (Nat.div_mod_eq (x + 3) 4).
  pose proof (Nat.mod_upper_bound (x + 3) 4 ltac:(lia)).
  lia.
Qed.

Lemma append_nonempty_l (a b : string) : a <> "" -> a ++ b <> "".
Proof. destruct a; [congruence | discriminate]. Qed.

(** The value [parseUnits] returns on a string that matches with whole
    part [w] and decimals [f]: the number written [w.f], times
    [10^decimals].  Stated without division: [v * 10^|f| = W * 10^d]
    where [W] is the integer written by the digits of [w] and [f]. *)
Lemma parseUnits_matched (value : string) (neg : bool) (w f : string)
      (d : N) (v : bigint) :
  all_digits w = true -> all_digits f = true ->
  Ethers.match_fixed value = Some (neg, w, f) ->
  Ethers.parseUnits value d = Ok v ->
  exists W, (parse_radix 10 dec_digit) 0 (Ethers.or_zero w ++ f) = Some W /\
            v * 10 ^ Z.of_nat (String.length f) =
            (if neg then - W else W) * 10 ^ Z.of_N d.
Proof.
  intros Hw Hf Hm. unfold Ethers.parseUnits. rewrite Hm.
  destruct (String.length w + String.length f =? 0)%nat; [discriminate|].
  destruct (80 <? d)%N; [discriminate|].
  set (nd := N.to_nat d).
  set (padded := Ethers.pad_decimals f nd).
  destruct (all_zeros (substring nd (String.length padded - nd) padded)) eqn:Hz;
    [|discriminate]. cbn [negb].
  destruct (or_zero_digits w Hw) as [Hw' Hne'].
  assert (all_digits (substring 0 nd padded) = true) as Hsub.
  { apply all_digits_substring. unfold padded, Ethers.pad_decimals.
    now rewrite all_digits_append, Hf, all_digits_zeros. }
  rewrite BigInt_signed_digits
    by (try (apply append_nonempty_l; assumption);
        now rewrite all_digits_append, Hw', Hsub).
  destruct ((parse_radix 10 dec_digit) 0 (Ethers.or_zero w ++ substring 0 nd padded)) as [V|] eqn:HV;
    [|discriminate]. cbn [option_map].
  match goal with |- context [if ?c then Ok _ else _] => destruct c end;
    [|discriminate].
  intros [= <-].
  rewrite parse_radix_append in HV.
  destruct (parse10_digits (Ethers.or_zero w) 0 Hw') as (W0 & HW0 & _ & _).
  rewrite HW0 in HV.
  rewrite parse_radix_append, HW0.
  destruct (parse10_digits f W0 Hf) as (F & _ & _ & HF). rewrite HF.
  eexists; split; [reflexivity|].
  assert (Z.of_N d = Z.of_nat nd) as -> by (unfold nd; lia).
  destruct (Nat.le_gt_cases (String.length f) nd) as [Hle|Hgt].
  - (* the decimals are padded up to [nd] digits *)
    unfold padded, Ethers.pad_decimals in HV.
    rewrite substring_pad in HV
      by (pose proof (pad_blocks_enough (nd - String.length f)); lia).
    rewrite parse_radix_append, HF, parse10_zeros in HV. injection HV as <-.
    replace (Z.of_nat nd)
      with (Z.of_nat (nd - String.length f) + Z.of_nat (String.length f)) by lia.
    rewrite Z.pow_add_r by lia. destruct neg; ring.
  - (* what is cut off beyond [nd] digits is zeros *)
    assert (padded = f) as Hp.
    { unfold padded, Ethers.pad_decimals.
      replace (4 * ((nd - String.length f + 3) / 4))%nat with 0%nat.
      - apply append_nil_r.
      - replace (nd - String.length f)%nat with 0%nat by lia. reflexivity. }
    rewrite Hp in HV, Hz.
    apply all_zeros_zeros in Hz.
    rewrite length_substring in Hz by lia.
    pose proof (substring_split f nd ltac:(lia)) as Hsplit.
    rewrite Hz in Hsplit.
    destruct (parse10_digits (substring 0 nd f) W0
                (all_digits_substring f 0 nd Hf)) as (F1 & _ & _ & HF1).
    rewrite HF1 in HV. injection HV as <-.
    pose proof (parse_radix_append 10 dec_digit (substring 0 nd f)
                  (zeros (String.length f - nd)) W0) as HA.
    rewrite <- Hsplit in HA. rewrite HF1, parse10_zeros, HF in HA.
    injection HA as HF'. rewrite HF'.
    replace (Z.of_nat (String.length f))
      with (Z.of_nat (String.length f - nd) + Z.of_nat nd) by lia.
    rewrite Z.pow_add_r by lia. destruct neg; ring.
Qed.

Lemma nonempty_of_length (s : string) : (0 < String.length s)%nat -> s <> "".
Proof. destruct s; simpl; [lia | discriminate]. Qed.

Lemma or_zero_nonempty (w : string) : w <> "" -> Ethers.or_zero w = w.
Proof. destruct w; [congruence | reflexivity]. Qed.

Lemma pow10_pos (z : Z) : 0 <= z -> 0 < 10 ^ z.
Proof. intro. apply Z.pow_pos_nonneg; lia. Qed.

(** [parseUnits] after [toString]: whenever the scaling returns, what it
    returns is the decimal value of the number times [10^decimals],
    exactly.  Numbers printed in exponent notation, [NaN] and the
    infinities make it throw. *)
Lemma parseUnits_Number_toString (x : number) (d : N) (v : bigint) :
  Ethers.parseUnits (Number_toString x) d = Ok v ->
  exists q, printed_value x = Some q /\
            (inject_Z v == q * inject_Z (10 ^ Z.of_N d))%Q.
Proof.
  destruct x as [|neg| |neg s n]; intro H.
  - discriminate H.
  - destruct neg; discriminate H.
  - destruct (parseUnits_matched "0" false "0" "" d v eq_refl eq_refl eq_refl H)
      as (W & HW & Hv).
    injection HW as <-. exists (0 # 1)%Q. split; [reflexivity|].
    assert (v = 0) as -> by (cbn in Hv; lia).
    unfold Qeq; simpl; lia.
  - cbn [Number_toString printed_value] in *.
    set (ds := digits_of s) in *.
    set (k := Z.of_nat (String.length ds)) in *.
    set (m := if neg then Z.neg s else Z.pos s).
    pose proof (all_digits_digits_of s) as Hds. fold ds in Hds.
    pose proof (length_digits_of_pos s) as Hlen. fold ds in Hlen.
    pose proof (parse10_digits_of s) as Hval. fold ds in Hval.
    assert (forall W, (if neg then - W else W) = (if neg then -1 else 1) * W) as Hsgn
        by (intro; destruct neg; lia).
    assert (m = (if neg then -1 else 1) * Z.pos s) as Hm
        by (unfold m; destruct neg; lia).
    eexists; split; [reflexivity|].
    destruct ((k <=? n) && (n <=? 21)) eqn:C1.
    { (* an integer: the digits, then zeros *)
      apply andb_true_iff in C1 as [Hk Hn].
      apply Z.leb_le in Hk. rewrite (proj2 (Z.leb_le _ _) Hk).
      assert (all_digits (ds ++ zeros (Z.to_nat (n - k))) = true) as Hw
          by now rewrite all_digits_append, Hds, all_digits_zeros.
      assert (ds ++ zeros (Z.to_nat (n - k)) <> "") as Hne
          by (apply append_nonempty_l, nonempty_of_length, Hlen).
      destruct (parseUnits_matched _ neg _ "" d v Hw eq_refl
                  (match_fixed_whole neg _ Hw Hne) H) as (W & HW & Hv).
      rewrite or_zero_nonempty, append_nil_r in HW by assumption.
      rewrite parse_radix_append, Hval, parse10_zeros in HW.
      assert (W = Z.pos s * 10 ^ Z.of_nat (Z.to_nat (n - k))) as -> by congruence.
      clear HW. rewrite Z2Nat.id in Hv by lia.
      change (Z.of_nat (String.length "")) with 0 in Hv.
      rewrite Z.pow_0_r, Z.mul_1_r, Hsgn in Hv.
      rewrite <- inject_Z_mult. apply inject_Z_injective.
      rewrite Hv, Hm. ring. }
    assert (forall w f,
               all_digits w = true -> w <> "" -> all_digits f = true ->
               (parse_radix 10 dec_digit) 0 (w ++ f) = Some (Z.pos s) ->
               Z.of_nat (String.length f) = k - n ->
               Ethers.parseUnits (sign_prefix neg ++ w ++ "." ++ f) d = Ok v ->
               k <= n \/
               (inject_Z v == (m # Z.to_pos (10 ^ (k - n))) * inject_Z (10 ^ Z.of_N d))%Q)
      as Hfrac.
    { intros w f Hw Hne Hf Hwf Hflen H'. right.
      destruct (parseUnits_matched _ neg w f d v Hw Hf
                  (match_fixed_point neg w f Hw Hne Hf) H') as (W & HW & Hv).
      rewrite or_zero_nonempty, Hwf in HW by assumption. injection HW as <-.
      rewrite Hflen, Hsgn in Hv.
      assert (0 <= k - n) by lia.
      unfold Qeq, Qmult, inject_Z; cbn [Qnum Qden].
      rewrite Pos.mul_1_r, Z2Pos.id by now apply pow10_pos.
      rewrite Hv, Hm. ring. }
    destruct ((0 <? n) && (n <=? 21)) eqn:C2.
    { (* digits on both sides of the point *)
      apply andb_true_iff in C2 as [Hn0 Hn21].
      apply Z.ltb_lt in Hn0. apply Z.leb_le in Hn21.
      assert (n < k) as Hnk.
      { apply andb_false_iff in C1 as [C|C];
          [apply Z.leb_gt in C | apply Z.leb_gt in C]; lia. }
      rewrite (proj2 (Z.leb_gt _ _) Hnk).
      destruct (Hfrac (substring 0 (Z.to_nat n) ds)
                      (substring (Z.to_nat n) (Z.to_nat (k - n)) ds))
        as [Hbad|Hq]; try assumption; try lia.
      - now apply all_digits_substring.
      - apply nonempty_of_length. rewrite length_substring; unfold k in *; lia.
      - now apply all_digits_substring.
      - replace (Z.to_nat (k - n)) with (String.length ds - Z.to_nat n)%nat
          by (unfold k; lia).
        rewrite <- substring_split by (unfold k in *; lia). exact Hval.
      - rewrite length_substring; unfold k in *; lia. }
    destruct ((-6 <? n) && (n <=? 0)) eqn:C3.
    { (* a leading "0.", zeros, then the digits *)
      apply andb_true_iff in C3 as [Hn6 Hn0].
      apply Z.ltb_lt in Hn6. apply Z.leb_le in Hn0.
      assert (n < k) as Hnk by (unfold k; lia).
      rewrite (proj2 (Z.leb_gt _ _) Hnk).
      destruct (Hfrac "0" (zeros (Z.to_nat (- n)) ++ ds))
        as [Hbad|Hq]; try assumption; try lia; try reflexivity.
      - discriminate.
      - now rewrite all_digits_append, all_digits_zeros.
      - change ("0" ++ zeros (Z.to_nat (- n)) ++ ds)
          with (zeros (S (Z.to_nat (- n))) ++ ds).
        rewrite parse_radix_append, parse10_zeros. exact Hval.
      - rewrite length_append, length_zeros. unfold k. lia. }
    (* exponent notation does not match the pattern *)
    exfalso. unfold Ethers.parseUnits in H.
    destruct (k =? 1).
    + rewrite match_fixed_exponent in H
        by (assumption || apply nonempty_of_length, Hlen).
      discriminate H.
    + rewrite match_fixed_point_exponent in H; [discriminate H| | |].
      * now apply all_digits_substring.
      * apply nonempty_of_length. rewrite length_substring; lia.
      * now apply all_digits_substring.
Qed.

(* ================================================================== *)
(** * Facts about the handler *)
(* ================================================================== *)

Section HandlerFacts.

Variable keccak256_digest : list byte -> list byte.
Variable env : Env.

(** What a successful call went through, stage by stage, and the trace
    it leaves. *)
Lemma run_Ok_inv (cp : ContextOrPayload) (username : string) (amt : number)
      (token : string) (reward : PermitReward) (tr : trace) :
  run keccak256_digest env cp username amt token = (Ok reward, tr) ->
  exists r tr0 wallet provider plain key addr d raw n data sig,
    resolveInputs cp username [] = (Ok r, tr0) /\
    truthy_string username = true /\
    _walletAddress r = Some wallet /\ truthy_string wallet = true /\
    getFastestProvider env (_evmNetworkId r) = Ok (Some provider) /\
    decryptionOutcome env (_evmPrivateEncrypted r) = Ok key /\
    computeAddress env key = Ok addr /\
    decimals env token provider = Ok d /\
    Ethers.parseUnits (Number_toString amt) d = Ok raw /\
    deriveNonce keccak256_digest (_userId r) (_issueNodeId r) = Ok n /\
    let permit :=
      {| Permit2.permitted := {| Permit2.token := token; Permit2.amount := raw |};
         Permit2.spender := wallet;
         Permit2.nonce := n;
         Permit2.deadline := Ethers.MaxInt256 |} in
    let adminWallet :=
      {| wallet_privateKey := key; wallet_provider := provider; address := addr |} in
    getPermitData env permit Permit2.PERMIT2_ADDRESS (_evmNetworkId r) = Ok data /\
    signTypedData env adminWallet (signerDomain (Permit2.domain data))
                  (Permit2.types data) (Permit2.values data) = Ok sig /\
    reward = assemble r permit adminWallet sig /\
    tr = (tr0 ++
          [ EvGetFastestProvider (_evmNetworkId r);
            EvDecrypt (_evmPrivateEncrypted r) (String_of_env (X25519_PRIVATE_KEY env));
            EvParseDecryptedPrivateKey plain;
            EvNewWallet key provider;
            EvDecimals token provider;
            EvGetPermitData permit Permit2.PERMIT2_ADDRESS (_evmNetworkId r);
            EvSignTypedData adminWallet (signerDomain (Permit2.domain data))
                            (Permit2.types data) (Permit2.values data);
            EvLog (_logger r) Linfo "Generated ERC20 permit2 signature"
                  (Some reward) ])%list.
Proof.
  intro H. unfold run, generateErc20PermitSignature, bind in H.
  destruct (resolveInputs cp username []) as [[r|e] tr0] eqn:HR; [|discriminate H].
  cbv [generateFromResolved decryptPrivateKey instantiateWallet fetchDecimals
       buildPermit signPermit bind call emit lift try_catch log ret throw] in H.
  repeat step_hyp H.
  injection H as <- <-.
  apply negb_false_iff in E.
  do 12 eexists.
  repeat (split; [eassumption || reflexivity|]).
  split.
  { unfold decryptionOutcome. rewrite E4, E5, E6, E7. reflexivity. }
  repeat (split; [eassumption || reflexivity|]).
  repeat rewrite <- app_assoc. reflexivity.
Qed.

Lemma resolveInputs_networkId (cp : ContextOrPayload) (username : string)
      (r : Resolved) (tr tr0 : trace) :
  resolveInputs cp username tr = (Ok r, tr0) ->
  _evmNetworkId r = inputNetworkId cp.
Proof.
  intro H. destruct cp as [p|c]; unfold_handler.
  - now injection H as <- _.
  - repeat step_hyp H; now injection H as <- _.
Qed.

(** Resolving the inputs only looks identities up. *)
Lemma resolveInputs_trace (cp : ContextOrPayload) (username : string)
      (res : result Resolved) (tr0 : trace) :
  resolveInputs cp username [] = (res, tr0) ->
  forallb is_identity_lookup tr0 = true.
Proof.
  intro H. destruct cp as [p|c]; unfold_handler.
  - now injection H as _ <-.
  - repeat step_hyp H; now injection H as _ <-.
Qed.

Lemma all_zeros_substring (s : string) (n m : nat) :
  all_zeros s = true -> all_zeros (substring n m s) = true.
Proof.
  revert n m; induction s as [|c r IH]; intros n m H.
  - now destruct n, m.
  - simpl in H. apply andb_true_iff in H as [Hc Hr].
    destruct n as [|n]; simpl.
    + destruct m as [|m]; simpl; [reflexivity|].
      now rewrite Hc, (IH 0%nat m Hr).
    + now apply IH.
Qed.

Lemma substring_zeros (n j : nat) :
  (n <= j)%nat -> substring 0 n (zeros j) = zeros n.
Proof.
  revert j; induction n as [|n IH]; intros [|j] H; simpl; try reflexivity; try lia.
  now rewrite IH by lia.
Qed.

(** Scaling zero never throws, whatever the (admissible) precision. *)
Lemma parseUnits_zero (d : N) :
  (d <= 80)%N -> Ethers.parseUnits (Number_toString Zero) d = Ok 0.
Proof.
  intro Hd. unfold Ethers.parseUnits.
  change (Ethers.match_fixed (Number_toString Zero)) with (Some (false, "0", "")).
  cbv iota beta. change (String.length "0" + String.length "" =? 0)%nat with false.
  cbv iota. rewrite (proj2 (N.ltb_ge 80 d) Hd).
  set (nd := N.to_nat d).
  unfold Ethers.pad_decimals. cbn [String.append String.length].
  rewrite all_zeros_substring by apply all_zeros_of_zeros. cbn [negb].
  rewrite substring_zeros by (pose proof (pad_blocks_enough (nd - 0)); lia).
  cbn [String.append Ethers.or_zero sign_prefix].
  change (String "0" (zeros nd)) with (zeros (S nd)).
  rewrite BigInt_digits
    by (apply all_digits_zeros || discriminate).
  rewrite parse10_zeros. reflexivity.
Qed.


(** C6: for every call that returns a reward, the deadline field is the
    decimal string of 2^255 - 1, the largest signed 256-bit integer,
    whatever the inputs and the collaborators. *)
Theorem deadline_is_max_int256
        (cp : ContextOrPayload) (username : string) (amt : number)
        (token : string) (reward : PermitReward) (tr : trace) :
  run keccak256_digest env cp username amt token = (Ok reward, tr) ->
  deadline reward = BigInt_toString (2 ^ 255 - 1) /\
  deadline reward =
  "57896044618658097711785492504343953926634992332820282019728792003956564819967".
Proof.
  intro H. apply run_Ok_inv in H.
  destruct H as (r & tr0 & wallet & provider & plain & key & addr & d & raw & n &
                 data & sig & _ & _ & _ & _ & _ & _ & _ & _ & _ & _ & _ & _ & -> & _).
  split; vm_compute; reflexivity.
Qed.

(** A digit string of length [l] writes a number below [10^l]. *)
Lemma parse10_bound (s : string) :
  all_digits s = true ->
  exists v, (parse_radix 10 dec_digit) 0 s = Some v /\
            0 <= v < 10 ^ Z.of_nat (String.length s).
Proof.
  induction s as [|c r IH]; intro H.
  - exists 0. split; [reflexivity|]. simpl. lia.
  - pose proof H as Hall. simpl in H. apply andb_true_iff in H as [Hc Hr].
    destruct (IH Hr) as (v & Hv & Hv0 & Hv1).
    unfold is_digit in Hc. cbn [parse_radix].
    destruct (dec_digit c) as [d|] eqn:Hd; [|discriminate].
    assert (0 <= d <= 9) as Hrange.
    { unfold dec_digit in Hd.
      destruct ((48 <=? Z.of_nat (nat_of_ascii c)) &&
                (Z.of_nat (nat_of_ascii c) <=? 57)) eqn:E; [|discriminate].
      injection Hd as <-. apply andb_true_iff in E as [E1 E2]. lia. }
    destruct (parse10_digits r (10 * 0 + d) Hr) as (v' & Hv' & _ & Hlin).
    rewrite Hv in Hv'. injection Hv' as <-.
    rewrite Hlin. eexists. split; [reflexivity|].
    cbn [String.length]. rewrite Nat2Z.inj_succ, Z.pow_succ_r by lia.
    assert (0 < 10 ^ Z.of_nat (String.length r)) by (apply Z.pow_pos_nonneg; lia).
    nia.
Qed.

(** When the pattern matches with at most [decimals] decimals,
    [parseUnits] returns.  The range check cannot fail on strings this
    short: 153 digits stay below [2^511]. *)
Lemma parseUnits_returns (value : string) (neg : bool) (w f : string) (d : N) :
  all_digits w = true -> all_digits f = true -> w <> "" ->
  Ethers.match_fixed value = Some (neg, w, f) ->
  (d <= 80)%N ->
  (String.length f <= N.to_nat d)%nat ->
  (String.length w + N.to_nat d <= 153)%nat ->
  exists v, Ethers.parseUnits value d = Ok v.
Proof.
  intros Hw Hf Hne Hm Hd Hlen Hshort. unfold Ethers.parseUnits. rewrite Hm.
  assert ((String.length w + String.length f =? 0)%nat = false) as ->.
  { apply Nat.eqb_neq. destruct w; [congruence|simpl; lia]. }
  rewrite (proj2 (N.ltb_ge 80 d) Hd).
  set (nd := N.to_nat d) in *.
  unfold Ethers.pad_decimals.
  set (j := (4 * ((nd - String.length f + 3) / 4))%nat).
  assert (nd - String.length f <= j)%nat as Hj by apply pad_blocks_enough.
  rewrite substring_skip by lia.
  rewrite all_zeros_substring by apply all_zeros_of_zeros. cbn [negb].
  rewrite substring_pad by lia.
  rewrite (or_zero_nonempty w Hne).
  assert (all_digits (w ++ f ++ zeros (nd - String.length f)) = true) as Hall
      by now rewrite !all_digits_append, Hw, Hf, all_digits_zeros.
  rewrite BigInt_signed_digits
    by (assumption || now apply append_nonempty_l).
  destruct (parse10_bound _ Hall) as (V & -> & HV0 & HV1). cbn [option_map].
  rewrite !length_append, length_zeros in HV1.
  assert (10 ^ Z.of_nat (String.length w + (String.length f + (nd - String.length f)))
          <= 10 ^ 153) as Hpow by (apply Z.pow_le_mono_r; lia).
  assert (10 ^ 153 < 2 ^ 511) as Hbig by (vm_compute; reflexivity).
  assert ((- 2 ^ 511 <=? (if neg then - V else V)) &&
          ((if neg then - V else V) <? 2 ^ 511) = true) as ->.
  { apply andb_true_iff. split; [apply Z.leb_le | apply Z.ltb_lt];
      destruct neg; lia. }
  eexists. reflexivity.
Qed.

(** [parseUnits] after [toString] returns on every number printed in
    plain decimal notation with no more digits after the point than
    [decimals], for [decimals] up to 80. *)
Lemma parseUnits_Number_toString_returns (x : number) (d : N) :
  prints_in_decimal_notation x = true ->
  (d <= 80)%N ->
  fraction_digits x <= Z.of_N d ->
  exists v, Ethers.parseUnits (Number_toString x) d = Ok v.
Proof.
  destruct x as [|neg| |neg s n]; intros Hp Hd Hfrac; try discriminate Hp.
  - exists 0. now apply parseUnits_zero.
  - cbn [Number_toString prints_in_decimal_notation fraction_digits] in *.
    set (ds := digits_of s) in *.
    set (k := Z.of_nat (String.length ds)) in *.
    pose proof (all_digits_digits_of s) as Hds. fold ds in Hds.
    pose proof (length_digits_of_pos s) as Hlen. fold ds in Hlen.
    apply andb_true_iff in Hp as [Hn6 Hn21].
    apply Z.ltb_lt in Hn6. apply Z.leb_le in Hn21.
    destruct ((k <=? n) && (n <=? 21)) eqn:C1.
    { apply andb_true_iff in C1 as [Hk _]. apply Z.leb_le in Hk.
      assert (all_digits (ds ++ zeros (Z.to_nat (n - k))) = true) as Hw
          by now rewrite all_digits_append, Hds, all_digits_zeros.
      assert (ds ++ zeros (Z.to_nat (n - k)) <> "") as Hne
          by (apply append_nonempty_l, nonempty_of_length, Hlen).
      apply (parseUnits_returns _ neg _ "" d Hw eq_refl Hne
               (match_fixed_whole neg _ Hw Hne) Hd).
      - simpl; lia.
      - rewrite length_append, length_zeros. unfold k in *. lia. }
    assert (n < k) as Hnk.
    { apply andb_false_iff in C1 as [C|C]; apply Z.leb_gt in C; lia. }
    destruct ((0 <? n) && (n <=? 21)) eqn:C2.
    { apply andb_true_iff in C2 as [Hn0 _]. apply Z.ltb_lt in Hn0.
      assert (all_digits (substring 0 (Z.to_nat n) ds) = true) as Hw
          by now apply all_digits_substring.
      assert (all_digits (substring (Z.to_nat n) (Z.to_nat (k - n)) ds) = true) as Hf
          by now apply all_digits_substring.
      assert (substring 0 (Z.to_nat n) ds <> "") as Hne
          by (apply nonempty_of_length; rewrite length_substring; unfold k in *; lia).
      apply (parseUnits_returns _ neg _ _ d Hw Hf Hne
               (match_fixed_point neg _ _ Hw Hne Hf) Hd).
      - rewrite length_substring; unfold k in *; lia.
      - rewrite length_substring; unfold k in *; lia. }
    destruct ((-6 <? n) && (n <=? 0)) eqn:C3.
    { assert (all_digits (zeros (Z.to_nat (- n)) ++ ds) = true) as Hf
          by now rewrite all_digits_append, all_digits_zeros.
      apply (parseUnits_returns _ neg "0" _ d eq_refl Hf ltac:(discriminate)
               (match_fixed_point neg "0" _ eq_refl ltac:(discriminate) Hf) Hd).
      - rewrite length_append, length_zeros. unfold k in *. lia.
      - simpl. lia. }
    exfalso.
    apply andb_false_iff in C2 as [C|C]; [apply Z.ltb_ge in C | apply Z.leb_gt in C; lia].
    apply andb_false_iff in C3 as [C'|C'];
      [apply Z.ltb_ge in C' | apply Z.leb_gt in C']; lia.
Qed.

(** A call whose checks pass and whose collaborators answer returns a
    reward, provided the amount can be scaled. *)
Lemma run_returns (cp : ContextOrPayload) (username : string) (amt : number)
      (token : string) (r : Resolved) (tr0 : trace) (wallet : string)
      (provider : Provider) (key addr : string) (d : N) (raw n : bigint) :
  resolveInputs cp username [] = (Ok r, tr0) ->
  truthy_string username = true ->
  _walletAddress r = Some wallet -> truthy_string wallet = true ->
  getFastestProvider env (_evmNetworkId r) = Ok (Some provider) ->
  decryptionOutcome env (_evmPrivateEncrypted r) = Ok key ->
  computeAddress env key = Ok addr ->
  decimals env token provider = Ok d ->
  Ethers.parseUnits (Number_toString amt) d = Ok raw ->
  deriveNonce keccak256_digest (_userId r) (_issueNodeId r) = Ok n ->
  (exists data,
      getPermitData env
        {| Permit2.permitted := {| Permit2.token := token; Permit2.amount := raw |};
           Permit2.spender := wallet;
           Permit2.nonce := n;
           Permit2.deadline := Ethers.MaxInt256 |}
        Permit2.PERMIT2_ADDRESS (_evmNetworkId r) = Ok data) ->
  (forall w sd ty v, exists sig, signTypedData env w sd ty v = Ok sig) ->
  exists reward tr,
    run keccak256_digest env cp username amt token = (Ok reward, tr) /\
    amount reward = BigInt_toString raw.
Proof.
  intros HR Hu Hw Hwt Hp Hdec Ha Hd Hraw Hn Hdata Hsign.
  unfold decryptionOutcome in Hdec.
  destruct (decrypt env _ _) as [plain|] eqn:E1; [|discriminate Hdec].
  destruct (parseDecryptedPrivateKey env plain) as [parsed|] eqn:E2;
    [|discriminate Hdec].
  destruct (privateKey parsed) as [k|] eqn:E3; [|discriminate Hdec].
  destruct (truthy_string k) eqn:E4; [|discriminate Hdec].
  injection Hdec as ->.
  destruct Hdata as (data & Hdata').
  destruct (Hsign
              {| wallet_privateKey := key; wallet_provider := provider; address := addr |}
              (signerDomain (Permit2.domain data)) (Permit2.types data)
              (Permit2.values data)) as (sig & Hsig).
  unfold run, generateErc20PermitSignature, bind. rewrite HR.
  cbv [generateFromResolved decryptPrivateKey instantiateWallet fetchDecimals
       buildPermit signPermit bind call emit lift try_catch log ret throw].
  rewrite Hu, Hw, Hwt, Hp, E1, E2, E3, E4, Ha, Hd, Hraw, Hn, Hdata', Hsig.
  do 2 eexists. split; reflexivity.
Qed.


(** C9: every reward returned has token type ERC20, the token address
    the caller gave, the resolved wallet address as beneficiary (in the
    payload shape, the wallet address of the payload) and the network id
    of the input. *)
Theorem reward_fields_pass_through
        (cp : ContextOrPayload) (username : string) (amt : number)
        (token : string) (reward : PermitReward) (tr : trace) :
  run keccak256_digest env cp username amt token = (Ok reward, tr) ->
  exists r tr0,
    resolveInputs cp username [] = (Ok r, tr0) /\
    tokenType reward = ERC20 /\
    tokenAddress reward = token /\
    _walletAddress r = Some (beneficiary reward) /\
    (forall p, cp = IsPayload p -> beneficiary reward = walletAddress p) /\
    networkId reward = inputNetworkId cp.
Proof.
  intro H. apply run_Ok_inv in H.
  destruct H as (r & tr0 & wallet & provider & plain & key & addr & d & raw & n &
                 data & sig & HR & _ & Hw & _ & _ & _ & _ & _ & _ & _ & _ & _ & -> & _).
  exists r, tr0. cbn [assemble tokenType tokenAddress beneficiary networkId
                      Permit2.token Permit2.permitted Permit2.spender].
  repeat (split; [assumption || reflexivity|]).
  split.
  - intros p ->. cbv [resolveInputs ret] in HR. injection HR as <- _.
    cbn [_walletAddress] in Hw. congruence.
  - eapply resolveInputs_networkId, HR.
Qed.

Lemma none_app (p : event -> bool) (a b : trace) :
  none p (a ++ b)%list = none p a && none p b.
Proof. apply forallb_app. Qed.

Lemma none_of_identity_lookups (p : event -> bool) (tr : trace) :
  (forall ev, is_identity_lookup ev = true -> p ev = false) ->
  forallb is_identity_lookup tr = true -> none p tr = true.
Proof.
  intros Hp H. unfold none. rewrite forallb_forall in *.
  intros ev Hev. now rewrite (Hp ev (H ev Hev)).
Qed.

(** C10: in the payload call shape an empty username makes the call
    throw "User was not found" with an empty trace: nothing was called,
    neither the provider selection, nor the decryption, nor the signer. *)
Theorem empty_username_is_rejected_first
        (p : Payload) (amt : number) (token : string) :
  run keccak256_digest env (IsPayload p) "" amt token = (Throw (Error "User was not found"), []) /\
  none is_network_call (snd (run keccak256_digest env (IsPayload p) "" amt token)) = true /\
  none is_decryption (snd (run keccak256_digest env (IsPayload p) "" amt token)) = true.
Proof. repeat split. Qed.

(** C8: in every call in which the provider selection is asked and
    answers with no connection, the outcome is the error
    "Provider is not defined", and the trace holds no decryption, no
    decimals fetch and no signing: no reward is produced. *)
Theorem provider_unavailable_stops_the_call
        (cp : ContextOrPayload) (username : string) (amt : number)
        (token : string) (res : result PermitReward) (tr : trace) (nid : number) :
  run keccak256_digest env cp username amt token = (res, tr) ->
  In (EvGetFastestProvider nid) tr ->
  getFastestProvider env nid = Ok None ->
  res = Throw (Error "Provider is not defined") /\
  none is_decryption tr = true /\
  none is_decimals_fetch tr = true /\
  none is_signing tr = true.
Proof.
  intros H Hin Hnone.
  destruct cp as [p|c]; all_paths H; injection H as <- <-; in_cases Hin;
    injection Hin as <-; cbn [_evmNetworkId] in *;
    try congruence; repeat split.
Qed.

(** C5 (amended): in every call whose inputs are resolved, whose
    username is not empty and whose wallet address is absent or empty, the
    outcome is the error "ERC20 Permit generation error: Wallet not
    found", logged once; the trace holds nothing after the resolution of
    the inputs but that log line: no decryption, no provider resolution,
    no decimals fetch, no signing. *)
Theorem missing_wallet_is_rejected_before_any_work
        (cp : ContextOrPayload) (username : string) (amt : number)
        (token : string) (r : Resolved) (tr0 : trace) :
  resolveInputs cp username [] = (Ok r, tr0) ->
  truthy_string username = true ->
  truthy_opt (_walletAddress r) = false ->
  run keccak256_digest env cp username amt token =
    (Throw (Error "ERC20 Permit generation error: Wallet not found"),
     (tr0 ++ [EvLog (_logger r) Lerror
                    "ERC20 Permit generation error: Wallet not found" None])%list) /\
  none is_decryption (snd (run keccak256_digest env cp username amt token)) = true /\
  none is_network_call (snd (run keccak256_digest env cp username amt token)) = true.
Proof.
  intros HR Hu Hw.
  assert (run keccak256_digest env cp username amt token =
          (Throw (Error "ERC20 Permit generation error: Wallet not found"),
           (tr0 ++ [EvLog (_logger r) Lerror
                          "ERC20 Permit generation error: Wallet not found" None])%list))
    as Hrun.
  { unfold run, generateErc20PermitSignature, bind. rewrite HR.
    unfold generateFromResolved. rewrite Hu. cbn [negb].
    destruct (_walletAddress r) as [w|]; cbn [truthy_opt] in Hw;
      [rewrite Hw|]; reflexivity. }
  rewrite Hrun. cbn [snd]. split; [reflexivity|].
  pose proof (resolveInputs_trace _ _ _ _ HR) as Htr.
  rewrite !none_app.
  rewrite !(none_of_identity_lookups _ tr0) by (assumption || now intros []).
  split; reflexivity.
Qed.

(** C4 (amended): in every call in which decryption is attempted and
    the key material cannot be decrypted or lacks a usable private key,
    the outcome is the error "Failed to decrypt a private key: <cause>";
    the trace holds no decimals fetch and no signing, so no signature is
    produced; it does hold the provider resolution, which comes first. *)
Theorem decryption_failure_stops_after_provider
        (cp : ContextOrPayload) (username : string) (amt : number)
        (token : string) (res : result PermitReward) (tr : trace)
        (cipher secret : string) (e : exn) :
  run keccak256_digest env cp username amt token = (res, tr) ->
  In (EvDecrypt cipher secret) tr ->
  decryptionOutcome env cipher = Throw e ->
  res = Throw (Error ("Failed to decrypt a private key: " ++ String_of_exn e)) /\
  none is_decimals_fetch tr = true /\
  none is_signing tr = true /\
  existsb is_provider_resolution tr = true.
Proof.
  intros H Hin Hdec.
  destruct cp as [p|c]; all_paths H; injection H as <- <-; in_cases Hin;
    injection Hin as <- _; cbn [_evmPrivateEncrypted] in *;
    unfold decryptionOutcome in Hdec;
    repeat match goal with
           | E : decrypt _ _ _ = _ |- _ => rewrite E in Hdec
           | E : parseDecryptedPrivateKey _ _ = _ |- _ => rewrite E in Hdec
           | E : privateKey _ = _ |- _ => rewrite E in Hdec
           | E : truthy_string _ = _ |- _ => rewrite E in Hdec
           end;
    try discriminate Hdec; injection Hdec as <-; repeat split.
Qed.

(** What the signer receives.  Whenever the signer is called, the domain
    it is given comes from the domain built by [getPermitData] as
    follows: name, version and verifyingContract unchanged; salt
    stringified when present; chainId stringified when present and truthy,
    and dropped otherwise: line 127 tests it for truthiness where line 129
    tests the salt for presence.  The types and values are the built
    ones. *)
Lemma signer_domain_is_converted
        (cp : ContextOrPayload) (username : string) (amt : number)
        (token : string) (res : result PermitReward) (tr : trace)
        (w : Wallet) (sd : SignerDomain) (ty : Permit2.TypedDataTypes)
        (v : Permit2.PermitTransferFrom) :
  run keccak256_digest env cp username amt token = (res, tr) ->
  In (EvSignTypedData w sd ty v) tr ->
  exists permit data,
    In (EvGetPermitData permit Permit2.PERMIT2_ADDRESS (inputNetworkId cp)) tr /\
    getPermitData env permit Permit2.PERMIT2_ADDRESS (inputNetworkId cp) = Ok data /\
    ty = Permit2.types data /\
    v = Permit2.values data /\
    sd_name sd = Permit2.name (Permit2.domain data) /\
    sd_version sd = Permit2.version (Permit2.domain data) /\
    sd_verifyingContract sd = Permit2.verifyingContract (Permit2.domain data) /\
    sd_salt sd = option_map String_toString (Permit2.salt (Permit2.domain data)) /\
    sd_chainId sd =
      match Permit2.chainId (Permit2.domain data) with
      | Some c => if truthy_number c then Some (Number_toString c) else None
      | None => None
      end.
Proof.
  intros H Hin.
  destruct cp as [p|c]; all_paths H; injection H as <- <-; in_cases Hin;
    injection Hin as <- <- <- <-; cbn [_evmNetworkId inputNetworkId] in *;
    do 2 eexists; (split; [simpl; tauto|]); (split; [eassumption|]);
    repeat split.
Qed.

End HandlerFacts.

(** C3: two calls that resolve to the same user id, node id, wallet
    address and network id, with the same amount and token address, in
    two environments where the token has the same decimals, and that both
    return a reward, return the same nonce, token address, beneficiary,
    amount and deadline.  The environments may differ in everything else
    (the signer, the provider, the decrypted key). *)
Theorem same_request_same_permit_fields
        (keccak256_digest : list byte -> list byte) (env1 env2 : Env)
        (cp1 cp2 : ContextOrPayload) (username1 username2 : string)
        (amt : number) (token : string)
        (r1 r2 : Resolved) (t1 t2 : trace)
        (reward1 reward2 : PermitReward) (tr1 tr2 : trace) :
  resolveInputs cp1 username1 [] = (Ok r1, t1) ->
  resolveInputs cp2 username2 [] = (Ok r2, t2) ->
  _userId r1 = _userId r2 ->
  _issueNodeId r1 = _issueNodeId r2 ->
  _walletAddress r1 = _walletAddress r2 ->
  _evmNetworkId r1 = _evmNetworkId r2 ->
  (forall p1 p2 d1 d2,
      decimals env1 token p1 = Ok d1 -> decimals env2 token p2 = Ok d2 -> d1 = d2) ->
  run keccak256_digest env1 cp1 username1 amt token = (Ok reward1, tr1) ->
  run keccak256_digest env2 cp2 username2 amt token = (Ok reward2, tr2) ->
  nonce reward1 = nonce reward2 /\
  tokenAddress reward1 = tokenAddress reward2 /\
  beneficiary reward1 = beneficiary reward2 /\
  amount reward1 = amount reward2 /\
  deadline reward1 = deadline reward2.
Proof.
  intros HR1 HR2 Hu Hi Hw Hn Hdec H1 H2.
  apply run_Ok_inv in H1, H2.
  destruct H1 as (r1' & t1' & wallet1 & provider1 & plain1 & key1 & addr1 & d1 &
                  raw1 & n1 & data1 & sig1 & HR1' & _ & Hw1 & _ & _ & _ & _ &
                  Hd1 & Hraw1 & Hn1 & _ & _ & -> & _).
  destruct H2 as (r2' & t2' & wallet2 & provider2 & plain2 & key2 & addr2 & d2 &
                  raw2 & n2 & data2 & sig2 & HR2' & _ & Hw2 & _ & _ & _ & _ &
                  Hd2 & Hraw2 & Hn2 & _ & _ & -> & _).
  rewrite HR1 in HR1'. injection HR1' as <- <-.
  rewrite HR2 in HR2'. injection HR2' as <- <-.
  assert (d1 = d2) as -> by (eapply Hdec; eassumption).
  assert (raw1 = raw2) as -> by congruence.
  assert (n1 = n2) as -> by congruence.
  assert (wallet1 = wallet2) as -> by congruence.
  repeat split.
Qed.

(* ================================================================== *)
(** * The scenario, run *)
(* ================================================================== *)

Section ScenarioRuns.
Import Scenario.

Example run_payload :
  run digest env (IsPayload payload0) "alice" one_and_a_half "0xToken" =
  (Ok reward0, trace_of 1500000 (Finite false 1 3) "0xsignature").
Proof. vm_compute. reflexivity. Qed.

Example run_context :
  run digest env' (IsContext context0) "alice" one_and_a_half "0xToken" =
  (Ok (reward_of 1500000 (Finite false 1 3) "0xothersignature"),
   [EvGetByUsername "alice"; EvGetWalletByUserId (Finite false 42 2)] ++
   trace_of 1500000 (Finite false 1 3) "0xothersignature")%list.
Proof. vm_compute. reflexivity. Qed.

Example run_zero_amount :
  run digest env (IsPayload payload0) "alice" Zero "0xToken" =
  (Ok (reward_of 0 (Finite false 1 3) "0xsignature"),
   trace_of 0 (Finite false 1 3) "0xsignature").
Proof. vm_compute. reflexivity. Qed.

Example run_corrupted :
  run digest env (IsPayload payload_corrupted) "alice" one_and_a_half "0xToken" =
  (Throw (Error "Failed to decrypt a private key: Error: incorrect key pair for the given ciphertext"),
   [ EvGetFastestProvider (Finite false 1 3);
     EvDecrypt "corrupted" "x25519-secret";
     EvLog log0 Lerror
       "Failed to decrypt a private key: Error: incorrect key pair for the given ciphertext"
       None ]).
Proof. vm_compute. reflexivity. Qed.

Example run_offline :
  run digest env_offline (IsPayload payload0) "alice" one_and_a_half "0xToken" =
  (Throw (Error "Provider is not defined"),
   [ EvGetFastestProvider (Finite false 1 3);
     EvLog log0 Lerror "Provider is not defined" None ]).
Proof. vm_compute. reflexivity. Qed.

Example run_network_zero :
  run digest env (IsPayload payload_network_zero) "alice" one_and_a_half "0xToken" =
  (Ok (reward_of 1500000 Zero "0xsignature"), trace_of 1500000 Zero "0xsignature").
Proof. vm_compute. reflexivity. Qed.

Lemma digest_length (data : list byte) : List.length (digest data) = 32%nat.
Proof.
  unfold digest. rewrite firstn_length_le; [reflexivity|].
  rewrite length_app, repeat_length. lia.
Qed.

End ScenarioRuns.

(* ================================================================== *)
(** * The theorems at work on the scenario *)
(* ================================================================== *)

Section ScenarioWitnesses.
Import Scenario.


Lemma deadline_is_max_int256_witness :
  run digest env (IsPayload payload0) "alice" one_and_a_half "0xToken" =
    (Ok reward0, trace_of 1500000 (Finite false 1 3) "0xsignature") /\
  deadline reward0 = BigInt_toString (2 ^ 255 - 1) /\
  deadline reward0 =
  "57896044618658097711785492504343953926634992332820282019728792003956564819967".
Proof.
  split; [vm_compute; reflexivity|].
  apply (deadline_is_max_int256 digest env (IsPayload payload0) "alice"
           one_and_a_half "0xToken" reward0 (trace_of 1500000 (Finite false 1 3) "0xsignature")).
  vm_compute; reflexivity.
Defined.


Lemma reward_fields_pass_through_witness :
  run digest env (IsPayload payload0) "alice" one_and_a_half "0xToken" =
    (Ok reward0, trace_of 1500000 (Finite false 1 3) "0xsignature") /\
  exists r tr0,
    resolveInputs (IsPayload payload0) "alice" [] = (Ok r, tr0) /\
    tokenType reward0 = ERC20 /\
    tokenAddress reward0 = "0xToken" /\
    _walletAddress r = Some (beneficiary reward0) /\
    (forall p, IsPayload payload0 = IsPayload p -> beneficiary reward0 = walletAddress p) /\
    networkId reward0 = inputNetworkId (IsPayload payload0).
Proof.
  split; [vm_compute; reflexivity|].
  apply (reward_fields_pass_through digest env (IsPayload payload0) "alice"
           one_and_a_half "0xToken" reward0 (trace_of 1500000 (Finite false 1 3) "0xsignature")).
  vm_compute; reflexivity.
Defined.

(** No provider: the call stops there. *)
Lemma provider_unavailable_stops_the_call_witness :
  run digest env_offline (IsPayload payload0) "alice" one_and_a_half "0xToken" =
    (Throw (Error "Provider is not defined"),
     [ EvGetFastestProvider (Finite false 1 3);
       EvLog log0 Lerror "Provider is not defined" None ]) /\
  In (EvGetFastestProvider (Finite false 1 3))
     [ EvGetFastestProvider (Finite false 1 3);
       EvLog log0 Lerror "Provider is not defined" None ] /\
  getFastestProvider env_offline (Finite false 1 3) = Ok None /\
  (@Throw PermitReward (Error "Provider is not defined") =
     Throw (Error "Provider is not defined") /\
   none is_decryption
     [ EvGetFastestProvider (Finite false 1 3);
       EvLog log0 Lerror "Provider is not defined" None ] = true /\
   none is_decimals_fetch
     [ EvGetFastestProvider (Finite false 1 3);
       EvLog log0 Lerror "Provider is not defined" None ] = true /\
   none is_signing
     [ EvGetFastestProvider (Finite false 1 3);
       EvLog log0 Lerror "Provider is not defined" None ] = true).
Proof.
  split; [vm_compute; reflexivity|].
  split; [simpl; tauto|].
  split; [reflexivity|].
  apply (provider_unavailable_stops_the_call digest env_offline (IsPayload payload0)
           "alice" one_and_a_half "0xToken" _ _ (Finite false 1 3)).
  - vm_compute; reflexivity.
  - simpl; tauto.
  - reflexivity.
Defined.

(** No wallet address, a username: the wallet error, and nothing else. *)
Lemma missing_wallet_is_rejected_before_any_work_witness :
  resolveInputs (IsPayload payload_no_wallet) "alice" [] =
    (Ok {| _logger := log0; _walletAddress := Some "";
           _issueNodeId := "I_kwDOnode"; _evmNetworkId := (Finite false 1 3);
           _evmPrivateEncrypted := "sealed"; _userId := Finite false 42 2 |}, []) /\
  truthy_string "alice" = true /\
  truthy_opt (Some "") = false /\
  run digest env (IsPayload payload_no_wallet) "alice" one_and_a_half "0xToken" =
    (Throw (Error "ERC20 Permit generation error: Wallet not found"),
     [ EvLog log0 Lerror "ERC20 Permit generation error: Wallet not found" None ]) /\
  none is_decryption
    (snd (run digest env (IsPayload payload_no_wallet) "alice" one_and_a_half "0xToken"))
    = true /\
  none is_network_call
    (snd (run digest env (IsPayload payload_no_wallet) "alice" one_and_a_half "0xToken"))
    = true.
Proof.
  split; [reflexivity|]. split; [reflexivity|]. split; [reflexivity|].
  apply (missing_wallet_is_rejected_before_any_work digest env
           (IsPayload payload_no_wallet) "alice" one_and_a_half "0xToken"
           {| _logger := log0; _walletAddress := Some "";
              _issueNodeId := "I_kwDOnode"; _evmNetworkId := (Finite false 1 3);
              _evmPrivateEncrypted := "sealed"; _userId := Finite false 42 2 |} []);
    reflexivity.
Defined.

(** A ciphertext that does not decrypt: the decryption error, after the
    provider was resolved. *)
Lemma decryption_failure_stops_after_provider_witness :
  run digest env (IsPayload payload_corrupted) "alice" one_and_a_half "0xToken" =
    (Throw (Error "Failed to decrypt a private key: Error: incorrect key pair for the given ciphertext"),
     [ EvGetFastestProvider (Finite false 1 3);
       EvDecrypt "corrupted" "x25519-secret";
       EvLog log0 Lerror
         "Failed to decrypt a private key: Error: incorrect key pair for the given ciphertext"
         None ]) /\
  decryptionOutcome env "corrupted" =
    Throw (Foreign "Error: incorrect key pair for the given ciphertext") /\
  none is_decimals_fetch
    (snd (run digest env (IsPayload payload_corrupted) "alice" one_and_a_half "0xToken"))
    = true /\
  none is_signing
    (snd (run digest env (IsPayload payload_corrupted) "alice" one_and_a_half "0xToken"))
    = true /\
  existsb is_provider_resolution
    (snd (run digest env (IsPayload payload_corrupted) "alice" one_and_a_half "0xToken"))
    = true.
Proof.
  split; [vm_compute; reflexivity|].
  split; [reflexivity|].
  apply (decryption_failure_stops_after_provider digest env
           (IsPayload payload_corrupted) "alice" one_and_a_half "0xToken"
           (fst (run digest env (IsPayload payload_corrupted) "alice"
                     one_and_a_half "0xToken"))
           (snd (run digest env (IsPayload payload_corrupted) "alice"
                     one_and_a_half "0xToken"))
           "corrupted" "x25519-secret"
           (Foreign "Error: incorrect key pair for the given ciphertext")).
  - vm_compute; reflexivity.
  - vm_compute; tauto.
  - reflexivity.
Defined.

(** On network 100 the signer receives chain id "100". *)
Lemma signer_domain_is_converted_witness :
  run digest env (IsPayload payload0) "alice" one_and_a_half "0xToken" =
    (Ok reward0, trace_of 1500000 (Finite false 1 3) "0xsignature") /\
  In (EvSignTypedData wallet0
        (signerDomain (Permit2.permit2Domain Permit2.PERMIT2_ADDRESS (Finite false 1 3)))
        Permit2.PERMIT_TRANSFER_FROM_TYPES (permit_of 1500000))
     (trace_of 1500000 (Finite false 1 3) "0xsignature") /\
  sd_chainId (signerDomain (Permit2.permit2Domain Permit2.PERMIT2_ADDRESS (Finite false 1 3))) =
    Some "100" /\
  exists permit data,
    In (EvGetPermitData permit Permit2.PERMIT2_ADDRESS (inputNetworkId (IsPayload payload0)))
       (trace_of 1500000 (Finite false 1 3) "0xsignature") /\
    getPermitData env permit Permit2.PERMIT2_ADDRESS (inputNetworkId (IsPayload payload0))
      = Ok data /\
    Permit2.PERMIT_TRANSFER_FROM_TYPES = Permit2.types data /\
    permit_of 1500000 = Permit2.values data /\
    sd_name (signerDomain (Permit2.permit2Domain Permit2.PERMIT2_ADDRESS (Finite false 1 3))) =
      Permit2.name (Permit2.domain data) /\
    sd_version (signerDomain (Permit2.permit2Domain Permit2.PERMIT2_ADDRESS (Finite false 1 3))) =
      Permit2.version (Permit2.domain data) /\
    sd_verifyingContract (signerDomain (Permit2.permit2Domain Permit2.PERMIT2_ADDRESS (Finite false 1 3))) =
      Permit2.verifyingContract (Permit2.domain data) /\
    sd_salt (signerDomain (Permit2.permit2Domain Permit2.PERMIT2_ADDRESS (Finite false 1 3))) =
      option_map String_toString (Permit2.salt (Permit2.domain data)) /\
    sd_chainId (signerDomain (Permit2.permit2Domain Permit2.PERMIT2_ADDRESS (Finite false 1 3))) =
      match Permit2.chainId (Permit2.domain data) with
      | Some c => if truthy_number c then Some (Number_toString c) else None
      | None => None
      end.
Proof.
  split; [vm_compute; reflexivity|].
  split; [simpl; tauto|].
  split; [reflexivity|].
  apply (signer_domain_is_converted digest env (IsPayload payload0) "alice"
           one_and_a_half "0xToken" (Ok reward0)
           (trace_of 1500000 (Finite false 1 3) "0xsignature") wallet0).
  - vm_compute; reflexivity.
  - simpl; tauto.
Defined.

(** The payload shape under one signer and the context shape under
    another: the same permit fields. *)
Lemma same_request_same_permit_fields_witness :
  resolveInputs (IsPayload payload0) "alice" [] = (Ok resolved0, []) /\
  resolveInputs (IsContext context0) "alice" [] =
    (Ok resolved0, [EvGetByUsername "alice"; EvGetWalletByUserId (Finite false 42 2)]) /\
  (forall p1 p2 d1 d2,
      decimals env "0xToken" p1 = Ok d1 -> decimals env' "0xToken" p2 = Ok d2 ->
      d1 = d2) /\
  signature reward0 <> signature (reward_of 1500000 (Finite false 1 3) "0xothersignature") /\
  nonce reward0 = nonce (reward_of 1500000 (Finite false 1 3) "0xothersignature") /\
  tokenAddress reward0 = tokenAddress (reward_of 1500000 (Finite false 1 3) "0xothersignature") /\
  beneficiary reward0 = beneficiary (reward_of 1500000 (Finite false 1 3) "0xothersignature") /\
  amount reward0 = amount (reward_of 1500000 (Finite false 1 3) "0xothersignature") /\
  deadline reward0 = deadline (reward_of 1500000 (Finite false 1 3) "0xothersignature").
Proof.
  split; [reflexivity|]. split; [reflexivity|].
  split; [intros p1 p2 d1 d2 H1 H2; simpl in H1, H2; congruence|].
  split; [discriminate|].
  apply (same_request_same_permit_fields digest env env'
           (IsPayload payload0) (IsContext context0) "alice" "alice"
           one_and_a_half "0xToken" resolved0 resolved0
           [] [EvGetByUsername "alice"; EvGetWalletByUserId (Finite false 42 2)]
           reward0 (reward_of 1500000 (Finite false 1 3) "0xothersignature")
           (trace_of 1500000 (Finite false 1 3) "0xsignature")
           ([EvGetByUsername "alice"; EvGetWalletByUserId (Finite false 42 2)] ++
            trace_of 1500000 (Finite false 1 3) "0xothersignature")%list);
    first [ reflexivity
          | vm_compute; reflexivity
          | intros p1 p2 d1 d2 H1 H2; simpl in H1, H2; congruence ].
Defined.

(** ** Where the handler departs from the statements of the specification *)

(** C2: the domain is not converted consistently.  On network id 0
    the domain built by [getPermitData] has chain id 0, present, whose
    stringification is "0"; yet the domain handed to the signer has no
    chain id, where the claim has the stringified chain id: line 127
    tests the chain id for truthiness, unlike line 129 for the salt. *)
Lemma chain_id_zero_reaches_the_signer_undefined :
  let tr := snd (run digest env (IsPayload payload_network_zero) "alice"
                     one_and_a_half "0xToken") in
  let built := Permit2.permit2Domain Permit2.PERMIT2_ADDRESS Zero in
  In (EvGetPermitData (permit_of 1500000) Permit2.PERMIT2_ADDRESS Zero) tr /\
  getPermitData env (permit_of 1500000) Permit2.PERMIT2_ADDRESS Zero =
    Ok {| Permit2.domain := built;
          Permit2.types := Permit2.PERMIT_TRANSFER_FROM_TYPES;
          Permit2.values := permit_of 1500000 |} /\
  In (EvSignTypedData wallet0 (signerDomain built)
                      Permit2.PERMIT_TRANSFER_FROM_TYPES (permit_of 1500000)) tr /\
  option_map Number_toString (Permit2.chainId built) = Some "0" /\
  sd_chainId (signerDomain built) = None /\
  sd_chainId (signerDomain built) <>
    option_map Number_toString (Permit2.chainId built).
Proof.
  vm_compute. repeat split; try tauto; discriminate.
Qed.

(** A corrupted ciphertext does make the call fail with the decryption
    error, but after a network call: the provider was resolved first. *)
Lemma decryption_failure_follows_a_network_call :
  let out := run digest env (IsPayload payload_corrupted) "alice"
                 one_and_a_half "0xToken" in
  decryptionOutcome env (evmPrivateEncrypted payload_corrupted) =
    Throw (Foreign "Error: incorrect key pair for the given ciphertext") /\
  fst out =
    Throw (Error "Failed to decrypt a private key: Error: incorrect key pair for the given ciphertext") /\
  snd out =
    [ EvGetFastestProvider (Finite false 1 3);
      EvDecrypt "corrupted" "x25519-secret";
      EvLog log0 Lerror
        "Failed to decrypt a private key: Error: incorrect key pair for the given ciphertext"
        None ] /\
  existsb is_network_call (snd out) = true /\
  none is_network_call (snd out) = false.
Proof. vm_compute. repeat split. Defined.

(** Without a wallet address and with an empty username, the error is
    the one about the user, not the one about the wallet. *)
Lemma missing_wallet_with_empty_username_reports_the_user :
  let out := run digest env (IsPayload payload_no_wallet) ""
                 one_and_a_half "0xToken" in
  truthy_string (walletAddress payload_no_wallet) = false /\
  out = (Throw (Error "User was not found"), []) /\
  fst out <> Throw (Error "ERC20 Permit generation error: Wallet not found").
Proof. vm_compute. repeat split. discriminate. Defined.

End ScenarioWitnesses.

Section PrintedDecimal.
Import Scenario Failures.


End PrintedDecimal.

(* ================================================================== *)
(** * The remaining paths of the handler *)
(* ================================================================== *)

Section StageFailures.

Variable keccak256_digest : list byte -> list byte.
Variable env : Env.

(** X1: when the wallet cannot be built from the decrypted key, the call
    throws "Failed to instantiate wallet: <cause>", logs that message at
    level debug, and neither fetches decimals, nor builds the permit
    data, nor signs. *)
Theorem wallet_instantiation_failure_stops_the_call
        (cp : ContextOrPayload) (username : string) (amt : number)
        (token : string) (res : result PermitReward) (tr : trace)
        (key : string) (p : Provider) (e : exn) :
  run keccak256_digest env cp username amt token = (res, tr) ->
  In (EvNewWallet key p) tr ->
  computeAddress env key = Throw e ->
  res = Throw (Error ("Failed to instantiate wallet: " ++ String_of_exn e)) /\
  (exists l, In (EvLog l Ldebug
                       ("Failed to instantiate wallet: " ++ String_of_exn e) None) tr) /\
  none is_decimals_fetch tr = true /\
  none is_permit_data tr = true /\
  none is_signing tr = true.
Proof.
  intros H Hin He.
  destruct cp as [pl|c]; all_paths H; injection H as <- <-; in_cases Hin;
    injection Hin as <- <-; try congruence;
    match goal with
    | E : computeAddress env _ = Throw _ |- _ =>
        rewrite E in He; injection He as <-
    end;
    (split; [reflexivity|]); (split; [eexists; simpl; tauto|]); repeat split.
Qed.

(** X2: when the decimals of the token cannot be read, the call throws
    "Failed to get token decimals for token: <tokenAddress>", whatever the
    cause, which appears neither in the error nor in the log (level
    debug); the permit data is not built and nothing is signed. *)
Theorem decimals_failure_hides_its_cause
        (cp : ContextOrPayload) (username : string) (amt : number)
        (token : string) (res : result PermitReward) (tr : trace)
        (token' : string) (p : Provider) (e : exn) :
  run keccak256_digest env cp username amt token = (res, tr) ->
  In (EvDecimals token' p) tr ->
  decimals env token' p = Throw e ->
  token' = token /\
  res = Throw (Error ("Failed to get token decimals for token: " ++ token)) /\
  (exists l, In (EvLog l Ldebug
                       ("Failed to get token decimals for token: " ++ token) None) tr) /\
  none is_permit_data tr = true /\
  none is_signing tr = true.
Proof.
  intros H Hin He.
  destruct cp as [pl|c]; all_paths H; injection H as <- <-; in_cases Hin;
    injection Hin as <- <-; try congruence;
    (split; [reflexivity|]); (split; [reflexivity|]);
    (split; [eexists; simpl; tauto|]); repeat split.
Qed.

(** X3: when the amount cannot be scaled ([parseUnits] throws on the
    printed amount at the decimals just fetched), the value thrown by
    [parseUnits] leaves the call as it is: not wrapped, not logged.  The
    permit data is not built and nothing is signed. *)
Theorem unscalable_amount_is_thrown_unwrapped
        (cp : ContextOrPayload) (username : string) (amt : number)
        (token : string) (res : result PermitReward) (tr : trace)
        (p : Provider) (d : N) (e : exn) :
  run keccak256_digest env cp username amt token = (res, tr) ->
  In (EvDecimals token p) tr ->
  decimals env token p = Ok d ->
  Ethers.parseUnits (Number_toString amt) d = Throw e ->
  res = Throw e /\
  none is_log tr = true /\
  none is_permit_data tr = true /\
  none is_signing tr = true.
Proof.
  intros H Hin Hd He.
  destruct cp as [pl|c]; all_paths H; injection H as <- <-; in_cases Hin;
    injection Hin as <-;
    match goal with
    | E : decimals env token _ = _ |- _ =>
        rewrite E in Hd; try discriminate Hd; injection Hd as <-
    end;
    try congruence;
    match goal with
    | E : Ethers.parseUnits _ _ = Throw _ |- _ =>
        rewrite E in He; injection He as <-
    end;
    repeat split.
Qed.

(** X4: when [getPermitData] throws, the value it throws leaves the call
    as it is: not wrapped, not logged; nothing is signed. *)
Theorem permit_data_failure_is_thrown_unwrapped
        (cp : ContextOrPayload) (username : string) (amt : number)
        (token : string) (res : result PermitReward) (tr : trace)
        (permit : Permit2.PermitTransferFrom) (permit2 : string)
        (chain : number) (e : exn) :
  run keccak256_digest env cp username amt token = (res, tr) ->
  In (EvGetPermitData permit permit2 chain) tr ->
  getPermitData env permit permit2 chain = Throw e ->
  res = Throw e /\
  none is_log tr = true /\
  none is_signing tr = true.
Proof.
  intros H Hin He.
  destruct cp as [pl|c]; all_paths H; injection H as <- <-; in_cases Hin;
    injection Hin as <- <- <-; cbn [_evmNetworkId] in *; try congruence;
    match goal with
    | E : getPermitData env _ _ _ = Throw _ |- _ =>
        rewrite E in He; injection He as <-
    end;
    repeat split.
Qed.

(** X5: when the signer rejects, the call throws
    "Failed to sign typed data <cause>" and logs that message at level
    error; the success line is not logged. *)
Theorem signing_failure_is_reported
        (cp : ContextOrPayload) (username : string) (amt : number)
        (token : string) (res : result PermitReward) (tr : trace)
        (w : Wallet) (sd : SignerDomain) (ty : Permit2.TypedDataTypes)
        (v : Permit2.PermitTransferFrom) (e : exn) :
  run keccak256_digest env cp username amt token = (res, tr) ->
  In (EvSignTypedData w sd ty v) tr ->
  signTypedData env w sd ty v = Throw e ->
  res = Throw (Error ("Failed to sign typed data " ++ String_of_exn e)) /\
  (exists l, In (EvLog l Lerror
                       ("Failed to sign typed data " ++ String_of_exn e) None) tr) /\
  count is_log tr = 1%nat.
Proof.
  intros H Hin He.
  destruct cp as [pl|c]; all_paths H; injection H as <- <-; in_cases Hin;
    injection Hin as <- <- <- <-; try congruence;
    match goal with
    | E : signTypedData env _ _ _ _ = Throw _ |- _ =>
        rewrite E in He; injection He as <-
    end;
    (split; [reflexivity|]); (split; [eexists; simpl; tauto|]); reflexivity.
Qed.

End StageFailures.

Section WholeCall.

Variable keccak256_digest : list byte -> list byte.
Variable env : Env.

(** A number that does not print in plain decimal notation cannot be
    scaled. *)
Lemma parseUnits_needs_decimal_notation (x : number) (d : N) (v : bigint) :
  Ethers.parseUnits (Number_toString x) d = Ok v ->
  prints_in_decimal_notation x = true.
Proof.
  destruct x as [|neg| |neg s n]; intro H; try reflexivity.
  - discriminate H.
  - destruct neg; discriminate H.
  - cbn [Number_toString prints_in_decimal_notation] in *.
    pose proof (all_digits_digits_of s) as Hds.
    pose proof (length_digits_of_pos s) as Hlen.
    destruct ((Z.of_nat (String.length (digits_of s)) <=? n) && (n <=? 21)) eqn:C1.
    { apply andb_true_iff in C1 as [Hk Hn]. apply Z.leb_le in Hk.
      rewrite Hn, andb_true_r. apply Z.ltb_lt. lia. }
    destruct ((0 <? n) && (n <=? 21)) eqn:C2.
    { apply andb_true_iff in C2 as [Hk Hn]. apply Z.ltb_lt in Hk.
      rewrite Hn, andb_true_r. apply Z.ltb_lt. lia. }
    destruct ((-6 <? n) && (n <=? 0)) eqn:C3.
    { apply andb_true_iff in C3 as [Hk Hn]. apply Z.leb_le in Hn.
      rewrite Hk. apply Z.leb_le. lia. }
    exfalso. unfold Ethers.parseUnits in H.
    destruct (Z.of_nat (String.length (digits_of s)) =? 1).
    + rewrite match_fixed_exponent in H
        by (assumption || apply nonempty_of_length, Hlen).
      discriminate H.
    + rewrite match_fixed_point_exponent in H; [discriminate H| | |].
      * now apply all_digits_substring.
      * apply nonempty_of_length. rewrite length_substring; lia.
      * now apply all_digits_substring.
Qed.

(** X6: an amount that JavaScript does not print in plain decimal
    notation (NaN, an infinity, a number of magnitude below 1e-6 or at
    least 1e21) never yields a reward, whatever the collaborators answer:
    the permit data is never built for it and the signer is never
    called. *)
Theorem amount_outside_decimal_notation_is_never_signed
        (cp : ContextOrPayload) (username : string) (amt : number)
        (token : string) (res : result PermitReward) (tr : trace) :
  prints_in_decimal_notation amt = false ->
  run keccak256_digest env cp username amt token = (res, tr) ->
  (forall reward, res <> Ok reward) /\
  none is_permit_data tr = true /\
  none is_signing tr = true.
Proof.
  intros Hamt H.
  destruct cp as [pl|c]; all_paths H; injection H as <- <-;
    try match goal with
        | E : Ethers.parseUnits _ _ = Ok _ |- _ =>
            apply parseUnits_needs_decimal_notation in E; congruence
        end;
    repeat split; discriminate.
Qed.

(** X7: no retries.  In every call, whatever its outcome, each kind of
    external call (user lookup, wallet lookup, provider resolution,
    decryption, key parsing, wallet instantiation, decimals fetch, permit
    data, signing) is made at most once. *)
Theorem no_collaborator_is_called_twice
        (cp : ContextOrPayload) (username : string) (amt : number)
        (token : string) (res : result PermitReward) (tr : trace) :
  run keccak256_digest env cp username amt token = (res, tr) ->
  Forall (fun kind => (count kind tr <= 1)%nat) call_kinds.
Proof.
  intro H.
  destruct cp as [pl|c]; all_paths H; injection H as <- <-;
    repeat constructor.
Qed.

(** X8: what is logged is what happens.  Every log line of a call is
    written to the logger of the input; a line at level info carries the
    reward that the call returns; a line at another level carries the
    message of the error that the call throws.  A call logs at most one
    line. *)
Theorem log_line_matches_the_outcome
        (cp : ContextOrPayload) (username : string) (amt : number)
        (token : string) (res : result PermitReward) (tr : trace)
        (l : Logger) (lvl : level) (message : string)
        (meta : option PermitReward) :
  run keccak256_digest env cp username amt token = (res, tr) ->
  In (EvLog l lvl message meta) tr ->
  l = inputLogger cp /\
  count is_log tr = 1%nat /\
  match lvl with
  | Linfo =>
      message = "Generated ERC20 permit2 signature" /\
      exists reward, meta = Some reward /\ res = Ok reward
  | Lerror | Ldebug => meta = None /\ res = Throw (Error message)
  end.
Proof.
  intros H Hin.
  destruct cp as [pl|c]; all_paths H; injection H as <- <-; in_cases Hin;
    injection Hin as <- <- <- <-; cbn [_logger inputLogger];
    repeat split; eauto.
Qed.

End WholeCall.

Section Outcomes.

Variable keccak256_digest : list byte -> list byte.
Variable env : Env.

Lemma resolveInputs_encrypted (cp : ContextOrPayload) (username : string)
      (r : Resolved) (tr tr0 : trace) :
  resolveInputs cp username tr = (Ok r, tr0) ->
  _evmPrivateEncrypted r = inputEncrypted cp.
Proof.
  intro H. destruct cp as [p|c]; unfold_handler.
  - now injection H as <- _.
  - repeat step_hyp H; now injection H as <- _.
Qed.

(** X11: the reward reads back as the permit that was signed.  After a
    successful call, the permit handed to [getPermitData] has the
    beneficiary as spender and the token address as token, and the nonce,
    deadline and amount strings of the reward parse back to its
    integers; the signature is what the signer answered, and the owner is
    the address of the signing wallet. *)
Theorem reward_reads_back_as_the_signed_permit
        (cp : ContextOrPayload) (username : string) (amt : number)
        (token : string) (reward : PermitReward) (tr : trace) :
  run keccak256_digest env cp username amt token = (Ok reward, tr) ->
  exists permit w sd ty v,
    In (EvGetPermitData permit Permit2.PERMIT2_ADDRESS (inputNetworkId cp)) tr /\
    In (EvSignTypedData w sd ty v) tr /\
    signTypedData env w sd ty v = Ok (signature reward) /\
    owner reward = address w /\
    Permit2.spender permit = beneficiary reward /\
    Permit2.token (Permit2.permitted permit) = tokenAddress reward /\
    BigInt (nonce reward) = Some (Permit2.nonce permit) /\
    BigInt (deadline reward) = Some (Permit2.deadline permit) /\
    BigInt (amount reward) = Some (Permit2.amount (Permit2.permitted permit)).
Proof.
  intro H. apply run_Ok_inv in H.
  destruct H as (r & tr0 & wallet & provider & plain & key & addr & d & raw & n &
                 data & sig & HR & _ & _ & _ & _ & _ & _ & _ & _ & _ & _ & Hsig & -> & ->).
  rewrite (resolveInputs_networkId _ _ _ _ _ HR) in *.
  do 5 eexists.
  split; [apply in_or_app; right; simpl; do 5 right; left; reflexivity|].
  split; [apply in_or_app; right; simpl; do 6 right; left; reflexivity|].
  split; [exact Hsig|].
  cbn [assemble owner address beneficiary tokenAddress nonce deadline amount
       Permit2.spender Permit2.token Permit2.permitted Permit2.nonce
       Permit2.deadline Permit2.amount].
  repeat split; apply BigInt_toString_roundtrip.
Qed.

(** X12: the signer is called last and with the decrypted key.  Whenever
    the signer is called, in a call that succeeds or not, the username
    was not empty, the provider selection answered the connection of the
    signing wallet, the key material decrypted to the key of that wallet,
    whose address derives from it, and the decimals were read through
    that connection and the amount scaled with them. *)
Theorem signer_is_called_after_every_other_stage
        (cp : ContextOrPayload) (username : string) (amt : number)
        (token : string) (res : result PermitReward) (tr : trace)
        (w : Wallet) (sd : SignerDomain) (ty : Permit2.TypedDataTypes)
        (v : Permit2.PermitTransferFrom) :
  run keccak256_digest env cp username amt token = (res, tr) ->
  In (EvSignTypedData w sd ty v) tr ->
  truthy_string username = true /\
  getFastestProvider env (inputNetworkId cp) = Ok (Some (wallet_provider w)) /\
  decryptionOutcome env (inputEncrypted cp) = Ok (wallet_privateKey w) /\
  computeAddress env (wallet_privateKey w) = Ok (address w) /\
  exists d raw,
    decimals env token (wallet_provider w) = Ok d /\
    Ethers.parseUnits (Number_toString amt) d = Ok raw /\
    In (EvDecimals token (wallet_provider w)) tr.
Proof.
  intros H Hin.
  destruct cp as [pl|c]; all_paths H; injection H as <- <-; in_cases Hin;
    injection Hin as <- <- <- <-;
    cbn [_evmNetworkId _evmPrivateEncrypted inputNetworkId inputEncrypted
         wallet_provider wallet_privateKey address] in *;
    (split; [now apply negb_false_iff|]);
    (split; [assumption|]);
    (split; [unfold decryptionOutcome;
             repeat match goal with
                    | E : decrypt _ _ _ = _ |- _ => rewrite E
                    | E : parseDecryptedPrivateKey _ _ = _ |- _ => rewrite E
                    | E : privateKey _ = _ |- _ => rewrite E
                    | E : truthy_string _ = _ |- _ => rewrite E
                    end; reflexivity|]);
    (split; [assumption|]);
    do 2 eexists; (split; [eassumption|]); (split; [eassumption|]);
    simpl; tauto.
Qed.

(** X13: every external call is made on the inputs of the call.  The
    user lookup is for the username; the provider is selected for the
    network id of the input; decryption is asked for the encrypted key of
    the input under the rendering of the process secret, which is
    "undefined" when the variable is not set; the decimals are read for
    the token address through the connection the provider selection
    answered; [getPermitData] is called for the Permit2 address, the
    network id of the input and the token address. *)
Theorem external_calls_are_made_on_the_inputs
        (cp : ContextOrPayload) (username : string) (amt : number)
        (token : string) (res : result PermitReward) (tr : trace) (ev : event) :
  run keccak256_digest env cp username amt token = (res, tr) ->
  In ev tr ->
  match ev with
  | EvGetByUsername u => u = username
  | EvGetFastestProvider n => n = inputNetworkId cp
  | EvDecrypt cipher secret =>
      cipher = inputEncrypted cp /\
      secret = String_of_env (X25519_PRIVATE_KEY env) /\
      (X25519_PRIVATE_KEY env = None -> secret = "undefined")
  | EvDecimals t p =>
      t = token /\ getFastestProvider env (inputNetworkId cp) = Ok (Some p)
  | EvGetPermitData permit permit2 n =>
      permit2 = Permit2.PERMIT2_ADDRESS /\ n = inputNetworkId cp /\
      Permit2.token (Permit2.permitted permit) = token /\
      Permit2.deadline permit = Ethers.MaxInt256
  | _ => True
  end.
Proof.
  intros H Hin.
  destruct cp as [pl|c]; all_paths H; injection H as <- <-; in_cases Hin;
    subst ev;
    cbn [_evmNetworkId _evmPrivateEncrypted inputNetworkId inputEncrypted] in *;
    repeat split; try assumption;
    intro Hnone; rewrite Hnone; reflexivity.
Qed.

End Outcomes.

Section NonceAndContext.

Variable keccak256_digest : list byte -> list byte.

Lemma be_value_inj (a b : list byte) (acc1 acc2 : Z) :
  List.length a = List.length b -> 0 <= acc1 -> 0 <= acc2 ->
  Ethers.be_value acc1 a = Ethers.be_value acc2 b ->
  acc1 = acc2 /\ a = b.
Proof.
  revert b acc1 acc2; induction a as [|x r IH]; intros [|y r'] acc1 acc2 Hlen H1 H2 H;
    try discriminate Hlen.
  - now split.
  - cbn [Ethers.be_value] in H. injection Hlen as Hlen.
    pose proof (Byte.to_N_bounded x). pose proof (Byte.to_N_bounded y).
    apply IH in H as [Hacc ->]; try lia.
    assert (Byte.to_N x = Byte.to_N y) as Hxy by lia.
    split; [lia|]. f_equal.
    apply (f_equal Byte.of_N) in Hxy. rewrite !Byte.of_to_N in Hxy. congruence.
Qed.

(** A user id printed in digits only and a node id can be read back
    from "<userId>-<nodeId>": the first character that is not a digit is
    the hyphen that separates them. *)
Lemma nonceInput_inj (u1 u2 : number) (n1 n2 : string) :
  all_digits (Number_toString u1) = true ->
  all_digits (Number_toString u2) = true ->
  nonceInput u1 n1 = nonceInput u2 n2 ->
  Number_toString u1 = Number_toString u2 /\ n1 = n2.
Proof.
  intros H1 H2 H. unfold nonceInput in H.
  apply (f_equal Ethers.span_digits) in H.
  rewrite !span_digits_append in H by (assumption || reflexivity).
  simpl in H. split; congruence.
Qed.


Variable env : Env.

(** X15: in the context call shape the resolution of the inputs fails
    first.  When GitHub knows no user of that name, the call throws
    "GitHub user was not found for id <username>" after the user lookup
    alone: the wallet adapter is not consulted.  When the user is found
    but the event carries neither an issue nor a pull request, the call
    throws "Issue Id is missing" after both lookups, whatever the
    username and the wallet address are: that check comes before the two
    guards.  Neither error is logged. *)
Theorem context_resolution_errors_come_first
        (c : Context) (username : string) (amt : number) (token : string) :
  (octokit_users_getByUsername c username = Ok None ->
   run keccak256_digest env (IsContext c) username amt token =
     (Throw (Error ("GitHub user was not found for id " ++ username)),
      [EvGetByUsername username])) /\
  (forall u w,
      octokit_users_getByUsername c username = Ok (Some u) ->
      adapters_supabase_wallet_getWalletByUserId c (id u) = Ok w ->
      issue (payload c) = None -> pull_request (payload c) = None ->
      run keccak256_digest env (IsContext c) username amt token =
        (Throw (Error "Issue Id is missing"),
         [EvGetByUsername username; EvGetWalletByUserId (id u)])).
Proof.
  split.
  - intro H. unfold_handler. now rewrite H.
  - intros u w Hu Hw Hi Hp. unfold_handler. now rewrite Hu, Hw, Hi, Hp.
Qed.

(** X16: in the context call shape the permit is bound to the user GitHub
    names and to the event of the webhook.  After a successful call the
    user lookup answered some user, the beneficiary is the wallet the
    adapter holds for the id of that user, and the nonce is derived from
    that id and from the node id of the issue when the payload has one,
    of the pull request otherwise. *)
Theorem context_permit_is_bound_to_user_and_event
        (c : Context) (username : string) (amt : number) (token : string)
        (reward : PermitReward) (tr : trace) :
  run keccak256_digest env (IsContext c) username amt token = (Ok reward, tr) ->
  exists u node rest,
    octokit_users_getByUsername c username = Ok (Some u) /\
    adapters_supabase_wallet_getWalletByUserId c (id u) =
      Ok (Some (beneficiary reward)) /\
    (issue (payload c) = Some node \/
     issue (payload c) = None /\ pull_request (payload c) = Some node) /\
    nonce reward =
      BigInt_toString
        (Ethers.be_value 0
           (keccak256_digest
              (Ethers.toUtf8Bytes (Number_toString (id u) ++ "-" ++ node)))) /\
    tr = ([EvGetByUsername username; EvGetWalletByUserId (id u)] ++ rest)%list.
Proof.
  intro H. apply run_Ok_inv in H.
  destruct H as (r & tr0 & wallet & provider & plain & key & addr & d & raw & n &
                 data & sig & HR & _ & Hw & _ & _ & _ & _ & _ & _ & Hn & _ & _ & -> & ->).
  unfold deriveNonce, Ethers.keccak256, nonceInput in Hn.
  rewrite BigInt_hexlify in Hn.
  destruct (keccak256_digest _) as [|b bs] eqn:Hd in Hn; [discriminate Hn|].
  rewrite <- Hd in Hn. injection Hn as <-. clear Hd.
  cbn [assemble nonce beneficiary Permit2.nonce Permit2.spender].
  cbv [resolveInputs bind call emit lift ret throw] in HR.
  repeat step_hyp HR; injection HR as <- <-;
    cbn [_walletAddress _userId _issueNodeId] in *; subst;
    do 3 eexists; repeat split; eauto.
Qed.

End NonceAndContext.

(* ================================================================== *)
(** * The remaining paths at work on the scenarios *)
(* ================================================================== *)

Section FailureWitnesses.
Import Scenario Failures.

Lemma wallet_instantiation_failure_stops_the_call_witness :
  In (EvNewWallet "0xkey" rpc) (snd (call_in env_bad_key one_and_a_half)) /\
  computeAddress env_bad_key "0xkey" = Throw (Foreign "TypeError: invalid private key") /\
  fst (call_in env_bad_key one_and_a_half) =
    Throw (Error ("Failed to instantiate wallet: " ++
                  String_of_exn (Foreign "TypeError: invalid private key"))) /\
  (exists l, In (EvLog l Ldebug
                   ("Failed to instantiate wallet: " ++
                    String_of_exn (Foreign "TypeError: invalid private key")) None)
                (snd (call_in env_bad_key one_and_a_half))) /\
  none is_decimals_fetch (snd (call_in env_bad_key one_and_a_half)) = true /\
  none is_permit_data (snd (call_in env_bad_key one_and_a_half)) = true /\
  none is_signing (snd (call_in env_bad_key one_and_a_half)) = true.
Proof.
  split; [vm_compute; tauto|]. split; [reflexivity|].
  apply (wallet_instantiation_failure_stops_the_call digest env_bad_key
           (IsPayload payload0) "alice" one_and_a_half "0xToken"
           (fst (call_in env_bad_key one_and_a_half))
           (snd (call_in env_bad_key one_and_a_half)) "0xkey" rpc).
  - apply surjective_pairing.
  - vm_compute; tauto.
  - reflexivity.
Defined.

Lemma decimals_failure_hides_its_cause_witness :
  In (EvDecimals "0xToken" rpc) (snd (call_in env_no_decimals one_and_a_half)) /\
  decimals env_no_decimals "0xToken" rpc =
    Throw (Foreign "Error: could not decode result data") /\
  "0xToken" = "0xToken" /\
  fst (call_in env_no_decimals one_and_a_half) =
    Throw (Error ("Failed to get token decimals for token: " ++ "0xToken")) /\
  (exists l, In (EvLog l Ldebug
                   ("Failed to get token decimals for token: " ++ "0xToken") None)
                (snd (call_in env_no_decimals one_and_a_half))) /\
  none is_permit_data (snd (call_in env_no_decimals one_and_a_half)) = true /\
  none is_signing (snd (call_in env_no_decimals one_and_a_half)) = true.
Proof.
  split; [vm_compute; tauto|]. split; [reflexivity|].
  apply (decimals_failure_hides_its_cause digest env_no_decimals
           (IsPayload payload0) "alice" one_and_a_half "0xToken"
           (fst (call_in env_no_decimals one_and_a_half))
           (snd (call_in env_no_decimals one_and_a_half)) "0xToken" rpc
           (Foreign "Error: could not decode result data")).
  - apply surjective_pairing.
  - vm_compute; tauto.
  - reflexivity.
Defined.

(** 1.5 of a token without decimals. *)
Lemma unscalable_amount_is_thrown_unwrapped_witness :
  In (EvDecimals "0xToken" rpc) (snd (call_in env_whole_units one_and_a_half)) /\
  decimals env_whole_units "0xToken" rpc = Ok 0%N /\
  Ethers.parseUnits (Number_toString one_and_a_half) 0 =
    Throw (Foreign "too many decimals for format") /\
  fst (call_in env_whole_units one_and_a_half) =
    Throw (Foreign "too many decimals for format") /\
  none is_log (snd (call_in env_whole_units one_and_a_half)) = true /\
  none is_permit_data (snd (call_in env_whole_units one_and_a_half)) = true /\
  none is_signing (snd (call_in env_whole_units one_and_a_half)) = true.
Proof.
  split; [vm_compute; tauto|]. split; [reflexivity|]. split; [reflexivity|].
  apply (unscalable_amount_is_thrown_unwrapped digest env_whole_units
           (IsPayload payload0) "alice" one_and_a_half "0xToken"
           (fst (call_in env_whole_units one_and_a_half))
           (snd (call_in env_whole_units one_and_a_half)) rpc 0%N).
  - apply surjective_pairing.
  - vm_compute; tauto.
  - reflexivity.
  - reflexivity.
Defined.

Lemma permit_data_failure_is_thrown_unwrapped_witness :
  In (EvGetPermitData (permit_of 1500000) Permit2.PERMIT2_ADDRESS (Finite false 1 3))
     (snd (call_in env_sdk_rejects one_and_a_half)) /\
  getPermitData env_sdk_rejects (permit_of 1500000) Permit2.PERMIT2_ADDRESS
                (Finite false 1 3) =
    Throw (Foreign "Error: Invariant failed: AMOUNT_OUT_OF_RANGE") /\
  fst (call_in env_sdk_rejects one_and_a_half) =
    Throw (Foreign "Error: Invariant failed: AMOUNT_OUT_OF_RANGE") /\
  none is_log (snd (call_in env_sdk_rejects one_and_a_half)) = true /\
  none is_signing (snd (call_in env_sdk_rejects one_and_a_half)) = true.
Proof.
  split; [vm_compute; tauto|]. split; [reflexivity|].
  apply (permit_data_failure_is_thrown_unwrapped digest env_sdk_rejects
           (IsPayload payload0) "alice" one_and_a_half "0xToken"
           (fst (call_in env_sdk_rejects one_and_a_half))
           (snd (call_in env_sdk_rejects one_and_a_half))
           (permit_of 1500000) Permit2.PERMIT2_ADDRESS (Finite false 1 3)).
  - apply surjective_pairing.
  - vm_compute; tauto.
  - reflexivity.
Defined.

Lemma signing_failure_is_reported_witness :
  In (EvSignTypedData wallet0
        (signerDomain (Permit2.permit2Domain Permit2.PERMIT2_ADDRESS (Finite false 1 3)))
        Permit2.PERMIT_TRANSFER_FROM_TYPES (permit_of 1500000))
     (snd (call_in env_signer_rejects one_and_a_half)) /\
  signTypedData env_signer_rejects wallet0
    (signerDomain (Permit2.permit2Domain Permit2.PERMIT2_ADDRESS (Finite false 1 3)))
    Permit2.PERMIT_TRANSFER_FROM_TYPES (permit_of 1500000) =
    Throw (Foreign "Error: invalid address") /\
  fst (call_in env_signer_rejects one_and_a_half) =
    Throw (Error ("Failed to sign typed data " ++
                  String_of_exn (Foreign "Error: invalid address"))) /\
  (exists l, In (EvLog l Lerror
                   ("Failed to sign typed data " ++
                    String_of_exn (Foreign "Error: invalid address")) None)
                (snd (call_in env_signer_rejects one_and_a_half))) /\
  count is_log (snd (call_in env_signer_rejects one_and_a_half)) = 1%nat.
Proof.
  split; [vm_compute; tauto|]. split; [reflexivity|].
  apply (signing_failure_is_reported digest env_signer_rejects
           (IsPayload payload0) "alice" one_and_a_half "0xToken"
           (fst (call_in env_signer_rejects one_and_a_half))
           (snd (call_in env_signer_rejects one_and_a_half)) wallet0
           (signerDomain (Permit2.permit2Domain Permit2.PERMIT2_ADDRESS (Finite false 1 3)))
           Permit2.PERMIT_TRANSFER_FROM_TYPES (permit_of 1500000)).
  - apply surjective_pairing.
  - vm_compute; tauto.
  - reflexivity.
Defined.

(** 1e-7 prints as "1e-7". *)
Lemma amount_outside_decimal_notation_is_never_signed_witness :
  prints_in_decimal_notation (Finite false 1 (-6)) = false /\
  (forall reward, fst (call_in env (Finite false 1 (-6))) <> Ok reward) /\
  none is_permit_data (snd (call_in env (Finite false 1 (-6)))) = true /\
  none is_signing (snd (call_in env (Finite false 1 (-6)))) = true.
Proof.
  split; [reflexivity|].
  apply (amount_outside_decimal_notation_is_never_signed digest env
           (IsPayload payload0) "alice" (Finite false 1 (-6)) "0xToken").
  - reflexivity.
  - apply surjective_pairing.
Defined.

Lemma no_collaborator_is_called_twice_witness :
  run digest env' (IsContext context0) "alice" one_and_a_half "0xToken" =
    (Ok (reward_of 1500000 (Finite false 1 3) "0xothersignature"),
     [EvGetByUsername "alice"; EvGetWalletByUserId (Finite false 42 2)] ++
     trace_of 1500000 (Finite false 1 3) "0xothersignature")%list /\
  Forall (fun kind =>
            Nat.le (count kind
                      ([EvGetByUsername "alice"; EvGetWalletByUserId (Finite false 42 2)] ++
                       trace_of 1500000 (Finite false 1 3) "0xothersignature")%list)
                   1%nat)
         call_kinds.
Proof.
  split; [vm_compute; reflexivity|].
  apply (no_collaborator_is_called_twice digest env' (IsContext context0) "alice"
           one_and_a_half "0xToken"
           (Ok (reward_of 1500000 (Finite false 1 3) "0xothersignature"))).
  vm_compute; reflexivity.
Defined.

Lemma log_line_matches_the_outcome_witness :
  In (EvLog log0 Lerror
        "Failed to decrypt a private key: Error: incorrect key pair for the given ciphertext"
        None)
     (snd (call_in env_without_secret one_and_a_half)) /\
  log0 = inputLogger (IsPayload payload0) /\
  count is_log (snd (call_in env_without_secret one_and_a_half)) = 1%nat /\
  @None PermitReward = None /\
  fst (call_in env_without_secret one_and_a_half) =
    Throw (Error "Failed to decrypt a private key: Error: incorrect key pair for the given ciphertext").
Proof.
  split; [vm_compute; tauto|].
  apply (log_line_matches_the_outcome digest env_without_secret
           (IsPayload payload0) "alice" one_and_a_half "0xToken"
           (fst (call_in env_without_secret one_and_a_half))
           (snd (call_in env_without_secret one_and_a_half)) log0 Lerror
           "Failed to decrypt a private key: Error: incorrect key pair for the given ciphertext"
           None).
  - apply surjective_pairing.
  - vm_compute; tauto.
Defined.

End FailureWitnesses.

Section OutcomeWitnesses.
Import Scenario Failures.

Lemma reward_reads_back_as_the_signed_permit_witness :
  run digest env (IsPayload payload0) "alice" one_and_a_half "0xToken" =
    (Ok reward0, trace_of 1500000 (Finite false 1 3) "0xsignature") /\
  exists permit w sd ty v,
    In (EvGetPermitData permit Permit2.PERMIT2_ADDRESS
                        (inputNetworkId (IsPayload payload0)))
       (trace_of 1500000 (Finite false 1 3) "0xsignature") /\
    In (EvSignTypedData w sd ty v) (trace_of 1500000 (Finite false 1 3) "0xsignature") /\
    signTypedData env w sd ty v = Ok (signature reward0) /\
    owner reward0 = address w /\
    Permit2.spender permit = beneficiary reward0 /\
    Permit2.token (Permit2.permitted permit) = tokenAddress reward0 /\
    BigInt (nonce reward0) = Some (Permit2.nonce permit) /\
    BigInt (deadline reward0) = Some (Permit2.deadline permit) /\
    BigInt (amount reward0) = Some (Permit2.amount (Permit2.permitted permit)).
Proof.
  split; [vm_compute; reflexivity|].
  apply (reward_reads_back_as_the_signed_permit digest env (IsPayload payload0)
           "alice" one_and_a_half "0xToken").
  vm_compute; reflexivity.
Defined.

(** The signer is reached, and rejects: the earlier stages had succeeded. *)
Lemma signer_is_called_after_every_other_stage_witness :
  In (EvSignTypedData wallet0
        (signerDomain (Permit2.permit2Domain Permit2.PERMIT2_ADDRESS (Finite false 1 3)))
        Permit2.PERMIT_TRANSFER_FROM_TYPES (permit_of 1500000))
     (snd (call_in env_signer_rejects one_and_a_half)) /\
  truthy_string "alice" = true /\
  getFastestProvider env_signer_rejects (inputNetworkId (IsPayload payload0)) =
    Ok (Some (wallet_provider wallet0)) /\
  decryptionOutcome env_signer_rejects (inputEncrypted (IsPayload payload0)) =
    Ok (wallet_privateKey wallet0) /\
  computeAddress env_signer_rejects (wallet_privateKey wallet0) = Ok (address wallet0) /\
  exists d raw,
    decimals env_signer_rejects "0xToken" (wallet_provider wallet0) = Ok d /\
    Ethers.parseUnits (Number_toString one_and_a_half) d = Ok raw /\
    In (EvDecimals "0xToken" (wallet_provider wallet0))
       (snd (call_in env_signer_rejects one_and_a_half)).
Proof.
  split; [vm_compute; tauto|].
  apply (signer_is_called_after_every_other_stage digest env_signer_rejects
           (IsPayload payload0) "alice" one_and_a_half "0xToken"
           (fst (call_in env_signer_rejects one_and_a_half))
           (snd (call_in env_signer_rejects one_and_a_half)) wallet0
           (signerDomain (Permit2.permit2Domain Permit2.PERMIT2_ADDRESS (Finite false 1 3)))
           Permit2.PERMIT_TRANSFER_FROM_TYPES (permit_of 1500000)).
  - apply surjective_pairing.
  - vm_compute; tauto.
Defined.

(** Without the environment variable, decryption is asked under the
    secret "undefined". *)
Lemma external_calls_are_made_on_the_inputs_witness :
  In (EvDecrypt "sealed" "undefined") (snd (call_in env_without_secret one_and_a_half)) /\
  "sealed" = inputEncrypted (IsPayload payload0) /\
  "undefined" = String_of_env (X25519_PRIVATE_KEY env_without_secret) /\
  (X25519_PRIVATE_KEY env_without_secret = None -> "undefined" = "undefined").
Proof.
  split; [vm_compute; tauto|].
  apply (external_calls_are_made_on_the_inputs digest env_without_secret
           (IsPayload payload0) "alice" one_and_a_half "0xToken"
           (fst (call_in env_without_secret one_and_a_half))
           (snd (call_in env_without_secret one_and_a_half))
           (EvDecrypt "sealed" "undefined")).
  - apply surjective_pairing.
  - vm_compute; tauto.
Defined.


(** An unknown user; and an event without issue or pull request, met
    with an empty username. *)
Lemma context_resolution_errors_come_first_witness :
  octokit_users_getByUsername context_unknown_user "alice" = Ok None /\
  call_on context_unknown_user "alice" =
    (Throw (Error ("GitHub user was not found for id " ++ "alice")),
     [EvGetByUsername "alice"]) /\
  octokit_users_getByUsername context_without_event "" =
    Ok (Some {| id := Finite false 42 2 |}) /\
  adapters_supabase_wallet_getWalletByUserId context_without_event (Finite false 42 2) =
    Ok (Some "0xBeneficiary") /\
  call_on context_without_event "" =
    (Throw (Error "Issue Id is missing"),
     [EvGetByUsername ""; EvGetWalletByUserId (Finite false 42 2)]).
Proof.
  split; [reflexivity|].
  split.
  { apply (proj1 (context_resolution_errors_come_first digest env
                    context_unknown_user "alice" one_and_a_half "0xToken")).
    reflexivity. }
  split; [reflexivity|]. split; [reflexivity|].
  apply (proj2 (context_resolution_errors_come_first digest env
                  context_without_event "" one_and_a_half "0xToken")
               {| id := Finite false 42 2 |} (Some "0xBeneficiary"));
    reflexivity.
Defined.

(** A pull request: the nonce is that of "42-PR_kwDOnode". *)
Lemma context_permit_is_bound_to_user_and_event_witness :
  call_on (context_with pull_request_event) "alice" =
    (fst (call_on (context_with pull_request_event) "alice"),
     snd (call_on (context_with pull_request_event) "alice")) /\
  fst (call_on (context_with pull_request_event) "alice") =
    Ok (reward_of_nonce
          (Ethers.be_value 0 (digest (Ethers.toUtf8Bytes "42-PR_kwDOnode")))) /\
  exists u node rest,
    octokit_users_getByUsername (context_with pull_request_event) "alice" =
      Ok (Some u) /\
    adapters_supabase_wallet_getWalletByUserId (context_with pull_request_event) (id u) =
      Ok (Some "0xBeneficiary") /\
    (issue (payload (context_with pull_request_event)) = Some node \/
     issue (payload (context_with pull_request_event)) = None /\
     pull_request (payload (context_with pull_request_event)) = Some node) /\
    BigInt_toString
      (Ethers.be_value 0 (digest (Ethers.toUtf8Bytes "42-PR_kwDOnode"))) =
      BigInt_toString
        (Ethers.be_value 0
           (digest (Ethers.toUtf8Bytes (Number_toString (id u) ++ "-" ++ node)))) /\
    snd (call_on (context_with pull_request_event) "alice") =
      ([EvGetByUsername "alice"; EvGetWalletByUserId (id u)] ++ rest)%list.
Proof.
  split; [apply surjective_pairing|].
  split; [vm_compute; reflexivity|].
  apply (context_permit_is_bound_to_user_and_event digest env
           (context_with pull_request_event) "alice" one_and_a_half "0xToken"
           (reward_of_nonce
              (Ethers.be_value 0 (digest (Ethers.toUtf8Bytes "42-PR_kwDOnode"))))
           (snd (call_on (context_with pull_request_event) "alice"))).
  vm_compute; reflexivity.
Defined.

End OutcomeWitnesses.

Section UnguardedCalls.

Variable keccak256_digest : list byte -> list byte.
Variable env : Env.

(** X17: when the provider selection itself rejects, the value it
    throws leaves the call as it is: not wrapped, not logged; decryption
    is not attempted. *)
Theorem provider_rejection_is_thrown_unwrapped
        (cp : ContextOrPayload) (username : string) (amt : number)
        (token : string) (res : result PermitReward) (tr : trace)
        (network : number) (e : exn) :
  run keccak256_digest env cp username amt token = (res, tr) ->
  In (EvGetFastestProvider network) tr ->
  getFastestProvider env network = Throw e ->
  res = Throw e /\
  none is_log tr = true /\
  none is_decryption tr = true /\
  none is_signing tr = true.
Proof.
  intros H Hin He.
  destruct cp as [pl|c]; all_paths H; injection H as <- <-; in_cases Hin;
    injection Hin as <-; cbn [_evmNetworkId] in *; try congruence;
    match goal with
    | E : getFastestProvider env _ = Throw _ |- _ =>
        rewrite E in He; injection He as <-
    end;
    repeat split.
Qed.

(** X18: in the context call shape, when the user lookup or the wallet
    lookup rejects, the value it throws leaves the call as it is, and the
    call has done nothing but the lookups made so far. *)
Theorem lookup_rejections_are_thrown_unwrapped
        (c : Context) (username : string) (amt : number) (token : string)
        (e : exn) :
  (octokit_users_getByUsername c username = Throw e ->
   run keccak256_digest env (IsContext c) username amt token =
     (Throw e, [EvGetByUsername username])) /\
  (forall u,
      octokit_users_getByUsername c username = Ok (Some u) ->
      adapters_supabase_wallet_getWalletByUserId c (id u) = Throw e ->
      run keccak256_digest env (IsContext c) username amt token =
        (Throw e, [EvGetByUsername username; EvGetWalletByUserId (id u)])).
Proof.
  split.
  - intro H. unfold_handler. now rewrite H.
  - intros u Hu Hw. unfold_handler. now rewrite Hu, Hw.
Qed.

(** X19: a decrypted record without a usable private key (the field
    absent or empty) is reported as a decryption failure whose cause is
    the handler's own "Private key is not defined": the call throws
    "Failed to decrypt a private key: Error: Private key is not defined",
    logs it at level error, and builds no wallet. *)
Theorem unusable_private_key_is_a_decryption_failure
        (cp : ContextOrPayload) (username : string) (amt : number)
        (token : string) (res : result PermitReward) (tr : trace)
        (plain : string) (parsed : ParsedKey) :
  run keccak256_digest env cp username amt token = (res, tr) ->
  In (EvParseDecryptedPrivateKey plain) tr ->
  parseDecryptedPrivateKey env plain = Ok parsed ->
  truthy_opt (privateKey parsed) = false ->
  res = Throw (Error "Failed to decrypt a private key: Error: Private key is not defined") /\
  In (EvLog (inputLogger cp) Lerror
            "Failed to decrypt a private key: Error: Private key is not defined" None) tr /\
  none is_wallet_instantiation tr = true /\
  none is_signing tr = true.
Proof.
  intros H Hin Hp Hk.
  destruct cp as [pl|c]; all_paths H; injection H as <- <-; in_cases Hin;
    injection Hin as <-;
    match goal with
    | E : parseDecryptedPrivateKey env _ = _ |- _ =>
        rewrite E in Hp; try discriminate Hp; injection Hp as <-
    end;
    match goal with
    | E : privateKey _ = _ |- _ => rewrite E in Hk; cbn [truthy_opt] in Hk
    end;
    try congruence;
    cbn [_logger inputLogger]; repeat split; simpl; tauto.
Qed.

End UnguardedCalls.

Section UnguardedWitnesses.
Import Scenario Failures.

Lemma provider_rejection_is_thrown_unwrapped_witness :
  In (EvGetFastestProvider (Finite false 1 3))
     (snd (call_in env_provider_rejects one_and_a_half)) /\
  getFastestProvider env_provider_rejects (Finite false 1 3) =
    Throw (Foreign "Error: no RPC is available") /\
  fst (call_in env_provider_rejects one_and_a_half) =
    Throw (Foreign "Error: no RPC is available") /\
  none is_log (snd (call_in env_provider_rejects one_and_a_half)) = true /\
  none is_decryption (snd (call_in env_provider_rejects one_and_a_half)) = true /\
  none is_signing (snd (call_in env_provider_rejects one_and_a_half)) = true.
Proof.
  split; [vm_compute; tauto|]. split; [reflexivity|].
  apply (provider_rejection_is_thrown_unwrapped digest env_provider_rejects
           (IsPayload payload0) "alice" one_and_a_half "0xToken"
           (fst (call_in env_provider_rejects one_and_a_half))
           (snd (call_in env_provider_rejects one_and_a_half)) (Finite false 1 3)).
  - apply surjective_pairing.
  - vm_compute; tauto.
  - reflexivity.
Defined.

Lemma lookup_rejections_are_thrown_unwrapped_witness :
  octokit_users_getByUsername context_adapter_rejects "alice" =
    Ok (Some {| id := Finite false 42 2 |}) /\
  adapters_supabase_wallet_getWalletByUserId context_adapter_rejects (Finite false 42 2) =
    Throw (Foreign "Error: connection refused") /\
  call_on context_adapter_rejects "alice" =
    (Throw (Foreign "Error: connection refused"),
     [EvGetByUsername "alice"; EvGetWalletByUserId (Finite false 42 2)]).
Proof.
  split; [reflexivity|]. split; [reflexivity|].
  apply (proj2 (lookup_rejections_are_thrown_unwrapped digest env
                  context_adapter_rejects "alice" one_and_a_half "0xToken"
                  (Foreign "Error: connection refused"))
               {| id := Finite false 42 2 |});
    reflexivity.
Defined.

Lemma unusable_private_key_is_a_decryption_failure_witness :
  In (EvParseDecryptedPrivateKey "{privateKey}")
     (snd (call_in env_empty_key one_and_a_half)) /\
  parseDecryptedPrivateKey env_empty_key "{privateKey}" = Ok {| privateKey := Some "" |} /\
  truthy_opt (Some "") = false /\
  fst (call_in env_empty_key one_and_a_half) =
    Throw (Error "Failed to decrypt a private key: Error: Private key is not defined") /\
  In (EvLog (inputLogger (IsPayload payload0)) Lerror
            "Failed to decrypt a private key: Error: Private key is not defined" None)
     (snd (call_in env_empty_key one_and_a_half)) /\
  none is_wallet_instantiation (snd (call_in env_empty_key one_and_a_half)) = true /\
  none is_signing (snd (call_in env_empty_key one_and_a_half)) = true.
Proof.
  split; [vm_compute; tauto|]. split; [reflexivity|]. split; [reflexivity|].
  apply (unusable_private_key_is_a_decryption_failure digest env_empty_key
           (IsPayload payload0) "alice" one_and_a_half "0xToken"
           (fst (call_in env_empty_key one_and_a_half))
           (snd (call_in env_empty_key one_and_a_half))
           "{privateKey}" {| privateKey := Some "" |}).
  - apply surjective_pairing.
  - vm_compute; tauto.
  - reflexivity.
  - reflexivity.
Defined.

End UnguardedWitnesses.
